(** * The refrigeration dashboard's telemetry simulator

    A shallow embedding of the simulator core of the two dashboard
    components (the random-walk value generator, the defrost state machine,
    the bootstrap of the history and the periodic update), and the
    properties of the specification settled against it.

    Conventions of the embedding.
    - A JavaScript number is an exact rational ([Q]): arithmetic is the
      ideal one, without the rounding of IEEE doubles, and the decimal
      literals of the source ([0.3], [1.5], ...) denote the rationals they
      spell.  Equality of numbers is [==] ([Qeq]).
    - [Math.random()] reads the next element of an explicit sequence of
      draws; the code that draws is written in a small state monad over
      that sequence, in the order in which JavaScript evaluates it.
    - [Date.now()] and [new Date()] are inputs: a time is a number of
      milliseconds ([Z]); [toLocaleTimeString] is a parameter.
    - React state ([useState]) is a record; a state setter builds the next
      record. *)

From Stdlib Require Import QArith Qminmax ZArith List String Bool Lia Lqa.
From Stdlib Require Import Sorted.
Import ListNotations.

Set Implicit Arguments.
Open Scope Q_scope.

(** ** JavaScript primitives *)

Module JS.

Definition Math_min (x y : Q) : Q := Qmin x y.
Definition Math_max (x y : Q) : Q := Qmax x y.

(** [x < y] and [x > y] on numbers. *)
Definition lt (x y : Q) : bool :=
  match x ?= y with Lt => true | _ => false end.
Definition gt (x y : Q) : bool := lt y x.

(** [arr.slice(-n)]: the last [n] elements, the whole array when it has
    no more than [n]. *)
Definition slice_last {A : Type} (n : nat) (arr : list A) : list A :=
  skipn (List.length arr - n)%nat arr.

(** The sequence of results of [Math.random()] and how many were read. *)
Record RandomSource : Type := {
  draws : nat -> Q;
  position : nat
}.

Definition Rand (A : Type) : Type := RandomSource -> A * RandomSource.

Definition ret {A : Type} (a : A) : Rand A := fun g => (a, g).

Definition bind {A B : Type} (m : Rand A) (k : A -> Rand B) : Rand B :=
  fun g => let (a, g') := m g in k a g'.

Definition Math_random : Rand Q :=
  fun g => (draws g (position g),
            {| draws := draws g; position := S (position g) |}).

(** The [n]-th result still to come. *)
Definition peek (g : RandomSource) (n : nat) : Q :=
  draws g (n + position g)%nat.

Definition advance (n : nat) (g : RandomSource) : RandomSource :=
  {| draws := draws g; position := (n + position g)%nat |}.

(** [Math.random()] returns a number in [[0, 1)]. *)
Definition in_unit_interval (g : RandomSource) : Prop :=
  forall n : nat, 0 <= draws g n /\ draws g n < 1.

(** A source that always returns [r]. *)
Definition constant (r : Q) : RandomSource :=
  {| draws := fun _ => r; position := 0%nat |}.

(** A source that returns the elements of [l], then [r] for ever. *)
Definition scripted (l : list Q) (r : Q) : RandomSource :=
  {| draws := fun n => nth n l r; position := 0%nat |}.

End JS.

Import JS.

Notation "x <- m ;; k" := (bind m (fun x => k))
  (at level 61, m at next level, right associativity).

(** ** The shapes of the objects *)

(** An object with one entry per analog channel: [SIMULATION_CONFIG],
    [currentValues], [newValues] and the readings of a data point. *)
Record Channels (A : Type) : Type := {
  caseTemp : A;
  suctionTemp : A;
  dischargeTemp : A;
  evaporatorTemp : A;
  txValvePosition : A;
  txValveSuperheat : A
}.

Record ChannelConfig : Type := {
  baseline : Q;
  variance : Q;
  min : Q;
  max : Q
}.

Record BinaryStates : Type := {
  defrostMode : bool;
  compressorRunning : bool;
  evaporatorFan : bool;
  caseLight : bool;
  doorSwitch : bool;
  alarmStatus : bool
}.

(** A data point [{ time, timestamp, ...values }]. *)
Record DataPoint : Type := {
  time : string;
  timestamp : Z;
  readings : Channels Q
}.

(** The state of the component. *)
Record State : Type := {
  data : list DataPoint;
  binaryStates : BinaryStates;
  currentValues : Channels Q;
  isPaused : bool
}.

(** ** src/components/RefrigerationDashboard.jsx *)

Module Dashboard.

Definition SIMULATION_CONFIG : Channels ChannelConfig := {|
  caseTemp := {| baseline := 35; variance := 2; min := 32; max := 40 |};
  suctionTemp := {| baseline := 20; variance := 3; min := 15; max := 25 |};
  dischargeTemp := {| baseline := 140; variance := 5; min := 130; max := 155 |};
  evaporatorTemp := {| baseline := 28; variance := 2; min := 25; max := 35 |};
  txValvePosition := {| baseline := 45; variance := 10; min := 20; max := 70 |};
  txValveSuperheat := {| baseline := 8; variance := 2; min := 4; max := 15 |}
|}.

Definition generateValue (config : ChannelConfig) (previousValue : Q)
    (inDefrost : bool) : Rand Q :=
  if inDefrost then
    let defrostMultiplier := if lt (baseline config) 50 then 1.5 else 1.1 in
    r <- Math_random ;;
    ret (Math_min (max config)
           (previousValue + (r - 0.3) * variance config * defrostMultiplier))
  else
    r1 <- Math_random ;;
    let target := baseline config + (r1 - 0.5) * variance config in
    r2 <- Math_random ;;
    let change :=
      (target - previousValue) * 0.3 + (r2 - 0.5) * variance config * 0.5 in
    ret (Math_max (min config) (Math_min (max config) (previousValue + change))).

(** The initial values of [useState]. *)
Definition initialState : State := {|
  data := [];
  binaryStates := {|
    defrostMode := false;
    compressorRunning := true;
    evaporatorFan := true;
    caseLight := true;
    doorSwitch := false;
    alarmStatus := false
  |};
  currentValues := {|
    caseTemp := 35;
    suctionTemp := 20;
    dischargeTemp := 140;
    evaporatorTemp := 28;
    txValvePosition := 45;
    txValveSuperheat := 8
  |};
  isPaused := false
|}.

Section Component.

Variable toLocaleTimeString : Z -> string.

(** One round of the loop that fills [initialData], at counter [i]. *)
Definition initialDataPoint (now : Z) (i : nat) : Rand DataPoint :=
  let timestamp := (now - Z.of_nat i * 5000)%Z in
  c <- Math_random ;;
  s <- Math_random ;;
  d <- Math_random ;;
  e <- Math_random ;;
  p <- Math_random ;;
  h <- Math_random ;;
  ret {|
    time := toLocaleTimeString timestamp;
    timestamp := timestamp;
    readings := {|
      caseTemp := 35 + (c - 0.5) * 2;
      suctionTemp := 20 + (s - 0.5) * 2;
      dischargeTemp := 140 + (d - 0.5) * 5;
      evaporatorTemp := 28 + (e - 0.5) * 2;
      txValvePosition := 45 + (p - 0.5) * 10;
      txValveSuperheat := 8 + (h - 0.5) * 2
    |}
  |}.

(** [for (let i = ...; i > 0; i--) initialData.push(...)]. *)
Fixpoint initialDataLoop (now : Z) (i : nat) (initialData : list DataPoint)
    : Rand (list DataPoint) :=
  match i with
  | O => ret initialData
  | S i' =>
      point <- initialDataPoint now i ;;
      initialDataLoop now i' (initialData ++ [point])
  end.

Definition initialData (now : Z) : Rand (list DataPoint) :=
  initialDataLoop now 60 [].

(** The first effect: [setData(initialData)]. *)
Definition initialize (now : Z) (st : State) : Rand State :=
  history <- initialData now ;;
  ret {|
    data := history;
    binaryStates := binaryStates st;
    currentValues := currentValues st;
    isPaused := isPaused st
  |}.

Definition newBinaryStates (st : State) : Rand BinaryStates :=
  let binaryStates := binaryStates st in
  let currentValues := currentValues st in
  shouldStartDefrost <-
    (if negb (defrostMode binaryStates)
     then r <- Math_random ;; ret (lt r 0.05)
     else ret false) ;;
  shouldEndDefrost <-
    (if defrostMode binaryStates
     then r <- Math_random ;; ret (lt r 0.3)
     else ret false) ;;
  door <- Math_random ;;
  ret {|
    defrostMode :=
      if shouldStartDefrost then true
      else if shouldEndDefrost then false
      else defrostMode binaryStates;
    compressorRunning :=
      if shouldStartDefrost then false
      else if negb (defrostMode binaryStates) || shouldEndDefrost
           then true else false;
    evaporatorFan := if defrostMode binaryStates then false else true;
    caseLight := caseLight binaryStates;
    doorSwitch := lt door 0.1;
    alarmStatus :=
      gt (caseTemp currentValues) 38 || defrostMode binaryStates
  |}.

Definition newValues (currentValues : Channels Q) (inDefrost : bool)
    : Rand (Channels Q) :=
  c <- generateValue (caseTemp SIMULATION_CONFIG)
         (caseTemp currentValues) inDefrost ;;
  s <- generateValue (suctionTemp SIMULATION_CONFIG)
         (suctionTemp currentValues) inDefrost ;;
  d <- generateValue (dischargeTemp SIMULATION_CONFIG)
         (dischargeTemp currentValues) inDefrost ;;
  e <- generateValue (evaporatorTemp SIMULATION_CONFIG)
         (evaporatorTemp currentValues) inDefrost ;;
  p <- generateValue (txValvePosition SIMULATION_CONFIG)
         (txValvePosition currentValues) inDefrost ;;
  h <- generateValue (txValveSuperheat SIMULATION_CONFIG)
         (txValveSuperheat currentValues) inDefrost ;;
  ret {|
    caseTemp := c;
    suctionTemp := s;
    dischargeTemp := d;
    evaporatorTemp := e;
    txValvePosition := p;
    txValveSuperheat := h
  |}.

Definition newDataPoint (now : Z) (values : Channels Q) : DataPoint := {|
  time := toLocaleTimeString now;
  timestamp := now;
  readings := values
|}.

(** The updater given to [setData]. *)
Definition setData (point : DataPoint) (prevData : list DataPoint)
    : list DataPoint :=
  let updated := prevData ++ [point] in
  slice_last 60 updated.

(** The callback of [setInterval], run at time [now]. *)
Definition tick (now : Z) (st : State) : Rand State :=
  states <- newBinaryStates st ;;
  values <- newValues (currentValues st) (defrostMode states) ;;
  ret {|
    data := setData (newDataPoint now values) (data st);
    binaryStates := states;
    currentValues := values;
    isPaused := isPaused st
  |}.

(** The second effect registers no interval while paused. *)
Definition interval (now : Z) (st : State) : Rand State :=
  if isPaused st then ret st else tick now st.

(** The callback run at each time of [clock] in turn. *)
Fixpoint ticks (clock : list Z) (st : State) : Rand State :=
  match clock with
  | [] => ret st
  | now :: later => st' <- tick now st ;; ticks later st'
  end.

End Component.

End Dashboard.

(** ** The second component (the one with the translation table)

    Its simulator core, transcribed from its own text. *)

Module DashboardI18n.

Definition SIMULATION_CONFIG : Channels ChannelConfig := {|
  caseTemp := {| baseline := 35; variance := 2; min := 32; max := 40 |};
  suctionTemp := {| baseline := 20; variance := 3; min := 15; max := 25 |};
  dischargeTemp := {| baseline := 140; variance := 5; min := 130; max := 155 |};
  evaporatorTemp := {| baseline := 28; variance := 2; min := 25; max := 35 |};
  txValvePosition := {| baseline := 45; variance := 10; min := 20; max := 70 |};
  txValveSuperheat := {| baseline := 8; variance := 2; min := 4; max := 15 |}
|}.

Definition generateValue (config : ChannelConfig) (previousValue : Q)
    (inDefrost : bool) : Rand Q :=
  if inDefrost then
    let defrostMultiplier := if lt (baseline config) 50 then 1.5 else 1.1 in
    r <- Math_random ;;
    ret (Math_min (max config)
           (previousValue + (r - 0.3) * variance config * defrostMultiplier))
  else
    r1 <- Math_random ;;
    let target := baseline config + (r1 - 0.5) * variance config in
    r2 <- Math_random ;;
    let change :=
      (target - previousValue) * 0.3 + (r2 - 0.5) * variance config * 0.5 in
    ret (Math_max (min config) (Math_min (max config) (previousValue + change))).

(** The initial values of [useState]. *)
Definition initialState : State := {|
  data := [];
  binaryStates := {|
    defrostMode := false;
    compressorRunning := true;
    evaporatorFan := true;
    caseLight := true;
    doorSwitch := false;
    alarmStatus := false
  |};
  currentValues := {|
    caseTemp := 35;
    suctionTemp := 20;
    dischargeTemp := 140;
    evaporatorTemp := 28;
    txValvePosition := 45;
    txValveSuperheat := 8
  |};
  isPaused := false
|}.

Section Component.

Variable toLocaleTimeString : Z -> string.

(** One round of the loop that fills [initialData], at counter [i]. *)
Definition initialDataPoint (now : Z) (i : nat) : Rand DataPoint :=
  let timestamp := (now - Z.of_nat i * 5000)%Z in
  c <- Math_random ;;
  s <- Math_random ;;
  d <- Math_random ;;
  e <- Math_random ;;
  p <- Math_random ;;
  h <- Math_random ;;
  ret {|
    time := toLocaleTimeString timestamp;
    timestamp := timestamp;
    readings := {|
      caseTemp := 35 + (c - 0.5) * 2;
      suctionTemp := 20 + (s - 0.5) * 2;
      dischargeTemp := 140 + (d - 0.5) * 5;
      evaporatorTemp := 28 + (e - 0.5) * 2;
      txValvePosition := 45 + (p - 0.5) * 10;
      txValveSuperheat := 8 + (h - 0.5) * 2
    |}
  |}.

(** [for (let i = ...; i > 0; i--) initialData.push(...)]. *)
Fixpoint initialDataLoop (now : Z) (i : nat) (initialData : list DataPoint)
    : Rand (list DataPoint) :=
  match i with
  | O => ret initialData
  | S i' =>
      point <- initialDataPoint now i ;;
      initialDataLoop now i' (initialData ++ [point])
  end.

Definition initialData (now : Z) : Rand (list DataPoint) :=
  initialDataLoop now 60 [].

(** The first effect: [setData(initialData)]. *)
Definition initialize (now : Z) (st : State) : Rand State :=
  history <- initialData now ;;
  ret {|
    data := history;
    binaryStates := binaryStates st;
    currentValues := currentValues st;
    isPaused := isPaused st
  |}.

Definition newBinaryStates (st : State) : Rand BinaryStates :=
  let binaryStates := binaryStates st in
  let currentValues := currentValues st in
  shouldStartDefrost <-
    (if negb (defrostMode binaryStates)
     then r <- Math_random ;; ret (lt r 0.05)
     else ret false) ;;
  shouldEndDefrost <-
    (if defrostMode binaryStates
     then r <- Math_random ;; ret (lt r 0.3)
     else ret false) ;;
  door <- Math_random ;;
  ret {|
    defrostMode :=
      if shouldStartDefrost then true
      else if shouldEndDefrost then false
      else defrostMode binaryStates;
    compressorRunning :=
      if shouldStartDefrost then false
      else if negb (defrostMode binaryStates) || shouldEndDefrost
           then true else false;
    evaporatorFan := if defrostMode binaryStates then false else true;
    caseLight := caseLight binaryStates;
    doorSwitch := lt door 0.1;
    alarmStatus :=
      gt (caseTemp currentValues) 38 || defrostMode binaryStates
  |}.

Definition newValues (currentValues : Channels Q) (inDefrost : bool)
    : Rand (Channels Q) :=
  c <- generateValue (caseTemp SIMULATION_CONFIG)
         (caseTemp currentValues) inDefrost ;;
  s <- generateValue (suctionTemp SIMULATION_CONFIG)
         (suctionTemp currentValues) inDefrost ;;
  d <- generateValue (dischargeTemp SIMULATION_CONFIG)
         (dischargeTemp currentValues) inDefrost ;;
  e <- generateValue (evaporatorTemp SIMULATION_CONFIG)
         (evaporatorTemp currentValues) inDefrost ;;
  p <- generateValue (txValvePosition SIMULATION_CONFIG)
         (txValvePosition currentValues) inDefrost ;;
  h <- generateValue (txValveSuperheat SIMULATION_CONFIG)
         (txValveSuperheat currentValues) inDefrost ;;
  ret {|
    caseTemp := c;
    suctionTemp := s;
    dischargeTemp := d;
    evaporatorTemp := e;
    txValvePosition := p;
    txValveSuperheat := h
  |}.

Definition newDataPoint (now : Z) (values : Channels Q) : DataPoint := {|
  time := toLocaleTimeString now;
  timestamp := now;
  readings := values
|}.

(** The updater given to [setData]. *)
Definition setData (point : DataPoint) (prevData : list DataPoint)
    : list DataPoint :=
  let updated := prevData ++ [point] in
  slice_last 60 updated.

(** The callback of [setInterval], run at time [now]. *)
Definition tick (now : Z) (st : State) : Rand State :=
  states <- newBinaryStates st ;;
  values <- newValues (currentValues st) (defrostMode states) ;;
  ret {|
    data := setData (newDataPoint now values) (data st);
    binaryStates := states;
    currentValues := values;
    isPaused := isPaused st
  |}.

(** The second effect registers no interval while paused. *)
Definition interval (now : Z) (st : State) : Rand State :=
  if isPaused st then ret st else tick now st.

(** The callback run at each time of [clock] in turn. *)
Fixpoint ticks (clock : list Z) (st : State) : Rand State :=
  match clock with
  | [] => ret st
  | now :: later => st' <- tick now st ;; ticks later st'
  end.

End Component.

End DashboardI18n.

(** ** The specification's formulas

    Definitions that follow the words of the specification, to be compared
    with the code above. *)

Module Spec.

(** "multiplier = 1.5 if baseline < 50 else 1.1". *)
Definition multiplier (config : ChannelConfig) : Q :=
  if Qlt_le_dec (baseline config) 50 then 1.5 else 1.1.

(** "next = previous + U(-0.3,0.7)*variance*multiplier, clamped at the
    upper bound only", for the draw [u]. *)
Definition defrost_next (config : ChannelConfig) (previous u : Q) : Q :=
  Qmin (max config) (previous + u * variance config * multiplier config).

(** "clamp to [min,max]". *)
Definition clamp (lo hi x : Q) : Q :=
  if Qlt_le_dec x lo then lo else if Qlt_le_dec hi x then hi else x.

(** "target = baseline + U(-0.5,0.5)*variance;
    next = previous + (target-previous)*0.3 + U(-0.5,0.5)*variance*0.5;
    clamp to [min,max]", for the draws [u1] and [u2]. *)
Definition normal_next (config : ChannelConfig) (previous u1 u2 : Q) : Q :=
  let target := baseline config + u1 * variance config in
  let next :=
    previous + (target - previous) * 0.3 + u2 * variance config * 0.5 in
  clamp (min config) (max config) next.

(** "min <= value <= max", for one channel and for the six of them. *)
Definition in_range (config : ChannelConfig) (value : Q) : Prop :=
  min config <= value /\ value <= max config.

Definition for_all_channels (P : ChannelConfig -> Q -> Prop)
    (configs : Channels ChannelConfig) (values : Channels Q) : Prop :=
  P (caseTemp configs) (caseTemp values) /\
  P (suctionTemp configs) (suctionTemp values) /\
  P (dischargeTemp configs) (dischargeTemp values) /\
  P (evaporatorTemp configs) (evaporatorTemp values) /\
  P (txValvePosition configs) (txValvePosition values) /\
  P (txValveSuperheat configs) (txValveSuperheat values).

Definition at_most_max (config : ChannelConfig) (value : Q) : Prop :=
  value <= max config.

End Spec.

(** ** The history loop in closed form *)

Module History.

(** "uniform jitter around the baseline": the draw [r] spread over an
    interval of width [amplitude] centred on [baseline]. *)
Definition jitter (baseline amplitude r : Q) : Q :=
  baseline + (r - 0.5) * amplitude.

(** The point pushed by round [k] (from 0) of a loop of [n] rounds: the
    counter is [n - k] and the six draws are the ones from [6 * k]. *)
Definition point (toLocaleTimeString : Z -> string) (now : Z)
    (g : RandomSource) (n k : nat) : DataPoint :=
  let timestamp := (now - Z.of_nat (n - k) * 5000)%Z in
  {| time := toLocaleTimeString timestamp;
     timestamp := timestamp;
     readings := {|
       caseTemp := jitter 35 2 (peek g (6 * k));
       suctionTemp := jitter 20 2 (peek g (6 * k + 1));
       dischargeTemp := jitter 140 5 (peek g (6 * k + 2));
       evaporatorTemp := jitter 28 2 (peek g (6 * k + 3));
       txValvePosition := jitter 45 10 (peek g (6 * k + 4));
       txValveSuperheat := jitter 8 2 (peek g (6 * k + 5))
     |} |}.

(** The state in which the updates start: the initial state once the
    first effect has stored the history built at time [now]. *)
Definition mounted (toLocaleTimeString : Z -> string) (now : Z)
    (g : RandomSource) : State * RandomSource :=
  Dashboard.initialize toLocaleTimeString now Dashboard.initialState g.

End History.

(** ** Sample inputs *)

Module Inputs.

Definition noTime : Z -> string := fun _ => EmptyString.

(** A state in defrost whose values have all drifted below their [min]. *)
Definition thawed : State := {|
  data := [];
  binaryStates := {|
    defrostMode := true;
    compressorRunning := false;
    evaporatorFan := false;
    caseLight := true;
    doorSwitch := false;
    alarmStatus := true
  |};
  currentValues := {|
    caseTemp := 31.4;
    suctionTemp := 14.6;
    dischargeTemp := 129.5;
    evaporatorTemp := 24.4;
    txValvePosition := 18;
    txValveSuperheat := 3.5
  |};
  isPaused := false
|}.

(** 61 updates, 5 seconds apart, from 5 seconds after time 0. *)
Definition clock61 : list Z :=
  map (fun i : nat => (Z.of_nat i * 5000)%Z) (seq 1 61).

End Inputs.

(** ** Objects with string keys, and what a component shows *)

Module Obj.

(** The own property [obj[key]] of an object literal given as the list of
    its entries: [None] when the literal has no such key. *)
Fixpoint own {A : Type} (key : string) (obj : list (string * A)) : option A :=
  match obj with
  | [] => None
  | (k, v) :: rest => if String.eqb key k then Some v else own key rest
  end.

Definition keys {A : Type} (obj : list (string * A)) : list string :=
  map fst obj.

End Obj.

(** A text slot of the tree a component returns: a string, or [None] for
    [undefined]. *)
Definition Text : Type := option string.

(** What [BinaryIndicator] returns: the class of the light, the label and
    the status. *)
Record Indicator : Type := {
  lightClass : string;
  indicatorLabel : Text;
  indicatorStatus : Text
}.

(** The props of a [MetricCard]; the card shows [value.toFixed(1)]. *)
Record Metric : Type := {
  metricLabel : Text;
  metricValue : Q;
  metricUnit : string;
  metricColor : string
}.

(** The props of a [Line] of the chart that differ from line to line. *)
Record Series : Type := {
  dataKey : string;
  stroke : string;
  seriesName : Text
}.

(** An entry of the payload that the chart gives to a tooltip: the name,
    the value and the color of a series at the point under the cursor. *)
Record PayloadEntry : Type := {
  entryName : Text;
  entryValue : Q;
  entryColor : string
}.

(** A row of a tooltip: its color and its text nodes. *)
Record TooltipRow : Type := {
  rowColor : string;
  rowText : list Text
}.

(** What a tooltip component returns: a heading and one row per entry. *)
Record TooltipBox : Type := {
  boxLabel : Text;
  boxRows : list TooltipRow
}.

(** The content of the [Tooltip] of the chart: the one of the chart
    library, or a component of the file's own, a function of the props
    [active], [payload] and [label] that returns a box or [null]. *)
Inductive TooltipContent : Type :=
| LibraryContent
| CustomContent
    (content : bool -> option (list PayloadEntry) -> Text -> option TooltipBox).

(** The content of the tree the component returns, in document order:
    texts, values, chart data, tooltip and series, indicators.  Styling
    props are left to the libraries that draw them. *)
Record View : Type := {
  title : Text;
  subtitle : Text;
  pauseLabel : Text;
  switchChecked : bool;
  pulse : bool;
  updatesLabel : Text;
  metrics : list Metric;
  chartTitle : Text;
  chartData : list DataPoint;
  yAxisLabel : Text;
  tooltip : TooltipContent;
  series : list Series;
  statusTitle : Text;
  indicators : list Indicator;
  footer : Text
}.

(** The random sources under which no defrost starts and the door stays
    shut: every draw is in [[0.1, 1)]. *)
Definition quiet (g : RandomSource) : Prop :=
  forall n : nat, 0.1 <= draws g n /\ draws g n < 1.

(** What every update keeps of the flags and the values. *)
Definition coherent (st : State) : Prop :=
  compressorRunning (binaryStates st) = negb (defrostMode (binaryStates st)) /\
  Spec.for_all_channels Spec.at_most_max Dashboard.SIMULATION_CONFIG
    (currentValues st) /\
  (List.length (data st) <= 60)%nat.

(** The view [v] with another content for its tooltip. *)
Definition withTooltip (content : TooltipContent) (v : View) : View :=
  {| title := title v;
     subtitle := subtitle v;
     pauseLabel := pauseLabel v;
     switchChecked := switchChecked v;
     pulse := pulse v;
     updatesLabel := updatesLabel v;
     metrics := metrics v;
     chartTitle := chartTitle v;
     chartData := chartData v;
     yAxisLabel := yAxisLabel v;
     tooltip := content;
     series := series v;
     statusTitle := statusTitle v;
     indicators := indicators v;
     footer := footer v |}.

(** A value within four thirds of the variance of the baseline of its
    channel. *)
Definition near_baseline (config : ChannelConfig) (value : Q) : Prop :=
  baseline config - (4 # 3) * variance config <= value /\
  value <= baseline config + (4 # 3) * variance config.

(** ** src/components/RefrigerationDashboard.jsx, what it shows *)

Module DashboardView.

Definition colors : list (string * string) := [
  ("blue", "bg-blue-500");
  ("green", "bg-green-500");
  ("red", "bg-red-500");
  ("yellow", "bg-yellow-500");
  ("purple", "bg-purple-500");
  ("orange", "bg-orange-500")
]%string.

Section Component.

(** The text of [${colors[color]}] for a [color] that is no key of
    [colors]: ["undefined"], unless objects inherit a property of that
    name. *)
Variable inherited : string -> string.

Definition BinaryIndicator (label : Text) (active : bool)
    (color : option string) : Indicator :=
  let color := match color with Some c => c | None => "blue"%string end in
  let shade :=
    match Obj.own color colors with Some c => c | None => inherited color end in
  {| lightClass :=
       ("indicator-light " ++ (if active then shade else "bg-gray-400")
        ++ " " ++ (if active then "active" else ""))%string;
     indicatorLabel := label;
     indicatorStatus := Some (if active then "ON" else "OFF")%string |}.

Definition render (st : State) : View :=
  let currentValues := currentValues st in
  let binaryStates := binaryStates st in
  {| title := Some "Refrigeration Case Controller"%string;
     subtitle := Some "Live Monitoring Dashboard"%string;
     pauseLabel := Some "Pause Updates"%string;
     switchChecked := isPaused st;
     pulse := negb (isPaused st);
     updatesLabel := Some "Updates every 5s"%string;
     metrics := [
       {| metricLabel := Some "Case Temperature"%string;
          metricValue := caseTemp currentValues;
          metricUnit := "°F"; metricColor := "#3b82f6" |};
       {| metricLabel := Some "Suction Temp"%string;
          metricValue := suctionTemp currentValues;
          metricUnit := "°F"; metricColor := "#06b6d4" |};
       {| metricLabel := Some "Discharge Temp"%string;
          metricValue := dischargeTemp currentValues;
          metricUnit := "°F"; metricColor := "#ef4444" |};
       {| metricLabel := Some "Evaporator Temp"%string;
          metricValue := evaporatorTemp currentValues;
          metricUnit := "°F"; metricColor := "#8b5cf6" |};
       {| metricLabel := Some "TX Valve Position"%string;
          metricValue := txValvePosition currentValues;
          metricUnit := "%"; metricColor := "#10b981" |};
       {| metricLabel := Some "TX Valve Superheat"%string;
          metricValue := txValveSuperheat currentValues;
          metricUnit := "°F"; metricColor := "#f59e0b" |}
     ];
     chartTitle := Some "Analog Signals - Time Series"%string;
     chartData := data st;
     yAxisLabel := Some "Temperature (°F) / Position (%)"%string;
     tooltip := LibraryContent;
     series := [
       {| dataKey := "caseTemp"; stroke := "#3b82f6";
          seriesName := Some "Case Temp (°F)"%string |};
       {| dataKey := "suctionTemp"; stroke := "#06b6d4";
          seriesName := Some "Suction Temp (°F)"%string |};
       {| dataKey := "dischargeTemp"; stroke := "#ef4444";
          seriesName := Some "Discharge Temp (°F)"%string |};
       {| dataKey := "evaporatorTemp"; stroke := "#8b5cf6";
          seriesName := Some "Evaporator Temp (°F)"%string |};
       {| dataKey := "txValvePosition"; stroke := "#10b981";
          seriesName := Some "TX Valve Position (%)"%string |};
       {| dataKey := "txValveSuperheat"; stroke := "#f59e0b";
          seriesName := Some "TX Superheat (°F)"%string |}
     ];
     statusTitle := Some "Digital Signals - System Status"%string;
     indicators := [
       BinaryIndicator (Some "Defrost Mode"%string)
         (defrostMode binaryStates) (Some "orange"%string);
       BinaryIndicator (Some "Compressor"%string)
         (compressorRunning binaryStates) (Some "green"%string);
       BinaryIndicator (Some "Evaporator Fan"%string)
         (evaporatorFan binaryStates) (Some "blue"%string);
       BinaryIndicator (Some "Case Light"%string)
         (caseLight binaryStates) (Some "yellow"%string);
       BinaryIndicator (Some "Door Switch"%string)
         (doorSwitch binaryStates) (Some "purple"%string);
       BinaryIndicator (Some "Alarm Status"%string)
         (alarmStatus binaryStates) (Some "red"%string)
     ];
     footer :=
       Some "Refrigeration Case Controller v1.0 | Simulated Data Stream"%string
  |}.

End Component.

End DashboardView.

(** ** The second component, what it shows and its controls *)

Module DashboardI18nView.

Definition TRANSLATIONS : list (string * list (string * string)) := [
  ("en", [
    ("title", "Refrigeration Case Controller");
    ("subtitle", "Live Monitoring Dashboard");
    ("language", "Language");
    ("pauseUpdates", "Pause Updates");
    ("updatesEvery", "Updates every 5s");
    ("caseTemperature", "Case Temperature");
    ("suctionTemp", "Suction Temp");
    ("dischargeTemp", "Discharge Temp");
    ("evaporatorTemp", "Evaporator Temp");
    ("txValvePosition", "TX Valve Position");
    ("txValveSuperheat", "TX Valve Superheat");
    ("analogSignals", "Analog Signals - Time Series");
    ("digitalSignals", "Digital Signals - System Status");
    ("yAxisLabel", "Temperature (°F) / Position (%)");
    ("caseTempChart", "Case Temp (°F)");
    ("suctionTempChart", "Suction Temp (°F)");
    ("dischargeTempChart", "Discharge Temp (°F)");
    ("evaporatorTempChart", "Evaporator Temp (°F)");
    ("txValvePositionChart", "TX Valve Position (%)");
    ("txSuperheatChart", "TX Superheat (°F)");
    ("defrostMode", "Defrost Mode");
    ("compressor", "Compressor");
    ("evaporatorFan", "Evaporator Fan");
    ("caseLight", "Case Light");
    ("doorSwitch", "Door Switch");
    ("alarmStatus", "Alarm Status");
    ("on", "ON");
    ("off", "OFF");
    ("footer", "Refrigeration Case Controller v1.0 | Simulated Data Stream")
  ]);
  ("es", [
    ("title", "Controlador de Cámara Frigorífica");
    ("subtitle", "Panel de Monitoreo en Vivo");
    ("language", "Idioma");
    ("pauseUpdates", "Pausar Actualizaciones");
    ("updatesEvery", "Actualiza cada 5s");
    ("caseTemperature", "Temperatura de Cámara");
    ("suctionTemp", "Temp. de Succión");
    ("dischargeTemp", "Temp. de Descarga");
    ("evaporatorTemp", "Temp. de Evaporador");
    ("txValvePosition", "Posición Válvula TX");
    ("txValveSuperheat", "Sobrecalentamiento TX");
    ("analogSignals", "Señales Analógicas - Series Temporales");
    ("digitalSignals", "Señales Digitales - Estado del Sistema");
    ("yAxisLabel", "Temperatura (°F) / Posición (%)");
    ("caseTempChart", "Temp. Cámara (°F)");
    ("suctionTempChart", "Temp. Succión (°F)");
    ("dischargeTempChart", "Temp. Descarga (°F)");
    ("evaporatorTempChart", "Temp. Evaporador (°F)");
    ("txValvePositionChart", "Posición Válvula TX (%)");
    ("txSuperheatChart", "Sobrecalentamiento TX (°F)");
    ("defrostMode", "Modo Descongelación");
    ("compressor", "Compresor");
    ("evaporatorFan", "Ventilador Evaporador");
    ("caseLight", "Luz de Cámara");
    ("doorSwitch", "Interruptor Puerta");
    ("alarmStatus", "Estado de Alarma");
    ("on", "ENCENDIDO");
    ("off", "APAGADO");
    ("footer", "Controlador de Cámara Frigorífica v1.0 | Flujo de Datos Simulados")
  ])
]%string.

Definition colors : list (string * string) := [
  ("blue", "bg-blue-500");
  ("green", "bg-green-500");
  ("red", "bg-red-500");
  ("yellow", "bg-yellow-500");
  ("purple", "bg-purple-500");
  ("orange", "bg-orange-500")
]%string.

(** The state of the component: the simulator's and the language. *)
Record Component : Type := {
  simulator : State;
  language : string
}.

Definition initialComponent : Component := {|
  simulator := DashboardI18n.initialState;
  language := "en"
|}.

(** A button of the language selector: its class and its text. *)
Record LanguageButton : Type := {
  buttonClass : string;
  buttonText : string
}.

(** The content of the returned tree: the language selector (the text
    nodes of its label, its buttons), then the parts that the first
    component has too. *)
Record LocalizedView : Type := {
  languageLabel : list Text;
  languageButtons : list LanguageButton;
  content : View
}.

Section Component.

Variable inherited : string -> string.

(** [value.toFixed(digits)], the decimal notation of a number. *)
Variable toFixed : Q -> nat -> string.

(** The tooltip of the chart: nothing unless it is active and has a
    payload that is not empty; otherwise the label and, for each entry, a
    row in its color that reads [name: value], the value with one
    decimal. *)
Definition CustomTooltip (active : bool) (payload : option (list PayloadEntry))
    (label : Text) : option TooltipBox :=
  if active then
    match payload with
    | Some (first :: others) =>
        Some {|
          boxLabel := label;
          boxRows :=
            map (fun entry : PayloadEntry =>
                   {| rowColor := entryColor entry;
                      rowText := [entryName entry; Some ": "%string;
                                  Some (toFixed (entryValue entry) 1)] |})
              (first :: others)
        |}
    | _ => None
    end
  else None.

(** [BinaryIndicator] reads the table [t] of the selected language. *)
Definition BinaryIndicator (t : list (string * string)) (label : Text)
    (active : bool) (color : option string) : Indicator :=
  let color := match color with Some c => c | None => "blue"%string end in
  let shade :=
    match Obj.own color colors with Some c => c | None => inherited color end in
  {| lightClass :=
       ("indicator-light " ++ (if active then shade else "bg-gray-400")
        ++ " " ++ (if active then "active" else ""))%string;
     indicatorLabel := label;
     indicatorStatus := if active then Obj.own "on" t else Obj.own "off" t |}.

(** The returned tree; [None] when [TRANSLATIONS[language]] is undefined,
    where reading [t.title] throws. *)
Definition render (c : Component) : option LocalizedView :=
  let st := simulator c in
  let currentValues := currentValues st in
  let binaryStates := binaryStates st in
  match Obj.own (language c) TRANSLATIONS with
  | None => None
  | Some t =>
    Some {|
      languageLabel := [Obj.own "language" t; Some ":"%string];
      languageButtons := [
        {| buttonClass :=
             ("language-btn " ++
              (if String.eqb (language c) "en" then "active" else ""))%string;
           buttonText := "English" |};
        {| buttonClass :=
             ("language-btn " ++
              (if String.eqb (language c) "es" then "active" else ""))%string;
           buttonText := "Español" |}
      ];
      content := {|
        title := Obj.own "title" t;
        subtitle := Obj.own "subtitle" t;
        pauseLabel := Obj.own "pauseUpdates" t;
        switchChecked := isPaused st;
        pulse := negb (isPaused st);
        updatesLabel := Obj.own "updatesEvery" t;
        metrics := [
          {| metricLabel := Obj.own "caseTemperature" t;
             metricValue := caseTemp currentValues;
             metricUnit := "°F"; metricColor := "#3b82f6" |};
          {| metricLabel := Obj.own "suctionTemp" t;
             metricValue := suctionTemp currentValues;
             metricUnit := "°F"; metricColor := "#06b6d4" |};
          {| metricLabel := Obj.own "dischargeTemp" t;
             metricValue := dischargeTemp currentValues;
             metricUnit := "°F"; metricColor := "#ef4444" |};
          {| metricLabel := Obj.own "evaporatorTemp" t;
             metricValue := evaporatorTemp currentValues;
             metricUnit := "°F"; metricColor := "#8b5cf6" |};
          {| metricLabel := Obj.own "txValvePosition" t;
             metricValue := txValvePosition currentValues;
             metricUnit := "%"; metricColor := "#10b981" |};
          {| metricLabel := Obj.own "txValveSuperheat" t;
             metricValue := txValveSuperheat currentValues;
             metricUnit := "°F"; metricColor := "#f59e0b" |}
        ];
        chartTitle := Obj.own "analogSignals" t;
        chartData := data st;
        yAxisLabel := Obj.own "yAxisLabel" t;
        tooltip := CustomContent CustomTooltip;
        series := [
          {| dataKey := "caseTemp"; stroke := "#3b82f6";
             seriesName := Obj.own "caseTempChart" t |};
          {| dataKey := "suctionTemp"; stroke := "#06b6d4";
             seriesName := Obj.own "suctionTempChart" t |};
          {| dataKey := "dischargeTemp"; stroke := "#ef4444";
             seriesName := Obj.own "dischargeTempChart" t |};
          {| dataKey := "evaporatorTemp"; stroke := "#8b5cf6";
             seriesName := Obj.own "evaporatorTempChart" t |};
          {| dataKey := "txValvePosition"; stroke := "#10b981";
             seriesName := Obj.own "txValvePositionChart" t |};
          {| dataKey := "txValveSuperheat"; stroke := "#f59e0b";
             seriesName := Obj.own "txSuperheatChart" t |}
        ];
        statusTitle := Obj.own "digitalSignals" t;
        indicators := [
          BinaryIndicator t (Obj.own "defrostMode" t)
            (defrostMode binaryStates) (Some "orange"%string);
          BinaryIndicator t (Obj.own "compressor" t)
            (compressorRunning binaryStates) (Some "green"%string);
          BinaryIndicator t (Obj.own "evaporatorFan" t)
            (evaporatorFan binaryStates) (Some "blue"%string);
          BinaryIndicator t (Obj.own "caseLight" t)
            (caseLight binaryStates) (Some "yellow"%string);
          BinaryIndicator t (Obj.own "doorSwitch" t)
            (doorSwitch binaryStates) (Some "purple"%string);
          BinaryIndicator t (Obj.own "alarmStatus" t)
            (alarmStatus binaryStates) (Some "red"%string)
        ];
        footer := Obj.own "footer" t
      |}
    |}
  end.

End Component.

(** What can happen to the mounted component: a click on a language
    button, a change of the pause switch, a period of the timer. *)
Inductive Event : Type :=
| ClickEnglish
| ClickEspanol
| CheckedChange (checked : bool)
| Period (now : Z).

Definition setLanguage (l : string) (c : Component) : Component :=
  {| simulator := simulator c; language := l |}.

Definition setIsPaused (checked : bool) (c : Component) : Component :=
  {| simulator := {|
       data := data (simulator c);
       binaryStates := binaryStates (simulator c);
       currentValues := currentValues (simulator c);
       isPaused := checked
     |};
     language := language c |}.

Section Events.

Variable toLocaleTimeString : Z -> string.

Definition handle (e : Event) (c : Component) : Rand Component :=
  match e with
  | ClickEnglish => ret (setLanguage "en" c)
  | ClickEspanol => ret (setLanguage "es" c)
  | CheckedChange checked => ret (setIsPaused checked c)
  | Period now =>
      st <- DashboardI18n.interval toLocaleTimeString now (simulator c) ;;
      ret {| simulator := st; language := language c |}
  end.

Fixpoint run (events : list Event) (c : Component) : Rand Component :=
  match events with
  | [] => ret c
  | e :: later => c' <- handle e c ;; run later c'
  end.

End Events.

(** The keys of the table that [render] reads. *)
Definition renderedKeys : list string := [
  "language"; "title"; "subtitle"; "pauseUpdates"; "updatesEvery";
  "caseTemperature"; "suctionTemp"; "dischargeTemp"; "evaporatorTemp";
  "txValvePosition"; "txValveSuperheat"; "analogSignals"; "yAxisLabel";
  "caseTempChart"; "suctionTempChart"; "dischargeTempChart";
  "evaporatorTempChart"; "txValvePositionChart"; "txSuperheatChart";
  "digitalSignals"; "defrostMode"; "compressor"; "evaporatorFan";
  "caseLight"; "doorSwitch"; "alarmStatus"; "on"; "off"; "footer"
]%string.

Definition isLanguageClick (e : Event) : bool :=
  match e with
  | ClickEnglish | ClickEspanol => true
  | _ => false
  end.

Definition isCheckedChange (e : Event) : bool :=
  match e with
  | CheckedChange _ => true
  | _ => false
  end.

End DashboardI18nView.

(** * Properties *)

(** ** Primitives *)

Lemma lt_true_iff (x y : Q) : lt x y = true <-> x < y.
Proof.
  unfold lt. rewrite Qlt_alt.
  destruct (x ?= y); split; intro H; try reflexivity; discriminate H.
Qed.

Lemma lt_false_iff (x y : Q) : lt x y = false <-> y <= x.
Proof.
  rewrite <- Bool.not_true_iff_false, lt_true_iff. split.
  - apply Qnot_lt_le.
  - apply Qle_not_lt.
Qed.

Lemma gt_true_iff (x y : Q) : gt x y = true <-> y < x.
Proof. unfold gt. apply lt_true_iff. Qed.

Lemma Math_min_le_l (x y : Q) : Math_min x y <= x.
Proof. apply Q.le_min_l. Qed.

Lemma Math_min_le_r (x y : Q) : Math_min x y <= y.
Proof. apply Q.le_min_r. Qed.

Lemma Math_max_le_l (x y : Q) : x <= Math_max x y.
Proof. apply Q.le_max_l. Qed.

Lemma Math_max_lub (x y z : Q) : x <= z -> y <= z -> Math_max x y <= z.
Proof. apply Q.max_lub. Qed.

Lemma Math_min_glb (x y z : Q) : z <= x -> z <= y -> z <= Math_min x y.
Proof. apply Q.min_glb. Qed.

(** The clamp of the code is the clamp of the specification when the
    bounds are in order. *)
Lemma clamp_correct (lo hi x : Q) :
  lo <= hi -> Math_max lo (Math_min hi x) == Spec.clamp lo hi x.
Proof.
  intro Hle. unfold Spec.clamp, Math_max, Math_min.
  destruct (Qlt_le_dec x lo) as [Hlo | Hlo].
  - apply Q.max_l. apply Qle_trans with x; [apply Q.le_min_r | lra].
  - destruct (Qlt_le_dec hi x) as [Hhi | Hhi].
    + rewrite Q.min_l by lra. apply Q.max_r. exact Hle.
    + rewrite Q.min_r by exact Hhi. apply Q.max_r. exact Hlo.
Qed.

(** ** The value generator, unfolded *)

Section GenerateValue.

Variables (config : ChannelConfig) (previousValue : Q) (g : RandomSource).

Lemma generateValue_defrost :
  Dashboard.generateValue config previousValue true g =
  (Math_min (max config)
     (previousValue + (peek g 0 - 0.3) * variance config *
                      (if lt (baseline config) 50 then 1.5 else 1.1)),
   advance 1 g).
Proof. reflexivity. Qed.

Lemma generateValue_normal :
  Dashboard.generateValue config previousValue false g =
  (Math_max (min config)
     (Math_min (max config)
        (previousValue +
         ((baseline config + (peek g 0 - 0.5) * variance config
           - previousValue) * 0.3
          + (peek g 1 - 0.5) * variance config * 0.5))),
   advance 2 g).
Proof. reflexivity. Qed.

Lemma generateValue_le_max (inDefrost : bool) :
  min config <= max config ->
  fst (Dashboard.generateValue config previousValue inDefrost g) <= max config.
Proof.
  intro Hle. destruct inDefrost.
  - rewrite generateValue_defrost. apply Math_min_le_l.
  - rewrite generateValue_normal. cbn [fst].
    apply Math_max_lub; [exact Hle | apply Math_min_le_l].
Qed.

Lemma generateValue_normal_ge_min :
  min config <= fst (Dashboard.generateValue config previousValue false g).
Proof. rewrite generateValue_normal. apply Math_max_le_l. Qed.

End GenerateValue.

Lemma multiplier_correct (config : ChannelConfig) :
  (if lt (baseline config) 50 then 1.5 else 1.1) = Spec.multiplier config.
Proof.
  unfold Spec.multiplier.
  destruct (Qlt_le_dec (baseline config) 50) as [H | H].
  - apply lt_true_iff in H. now rewrite H.
  - apply lt_false_iff in H. now rewrite H.
Qed.

(** ** The update, unfolded *)

Section Tick.

Variables (toLocaleTimeString : Z -> string) (now : Z) (st : State)
          (g : RandomSource).

Let states := fst (Dashboard.newBinaryStates st g).
Let g1 := snd (Dashboard.newBinaryStates st g).
Let values := fst (Dashboard.newValues (currentValues st) (defrostMode states) g1).

Lemma tick_binaryStates :
  binaryStates (fst (Dashboard.tick toLocaleTimeString now st g)) = states.
Proof.
  subst values g1 states. unfold Dashboard.tick, bind.
  destruct (Dashboard.newBinaryStates st g) as [nb g'].
  destruct (Dashboard.newValues (currentValues st) (defrostMode nb) g')
    as [v g'']. reflexivity.
Qed.

Lemma tick_currentValues :
  currentValues (fst (Dashboard.tick toLocaleTimeString now st g)) = values.
Proof.
  subst values g1 states. unfold Dashboard.tick, bind.
  destruct (Dashboard.newBinaryStates st g) as [nb g']. cbn [fst snd].
  destruct (Dashboard.newValues (currentValues st) (defrostMode nb) g')
    as [v g'']. reflexivity.
Qed.

Lemma tick_data :
  data (fst (Dashboard.tick toLocaleTimeString now st g)) =
  slice_last 60
    (data st ++ [Dashboard.newDataPoint toLocaleTimeString now values]).
Proof.
  subst values g1 states. unfold Dashboard.tick, bind.
  destruct (Dashboard.newBinaryStates st g) as [nb g']. cbn [fst snd].
  destruct (Dashboard.newValues (currentValues st) (defrostMode nb) g')
    as [v g'']. reflexivity.
Qed.

End Tick.

(** The flags after the transition, by the defrost flag before it. *)
Lemma newBinaryStates_not_in_defrost (st : State) (g : RandomSource) :
  defrostMode (binaryStates st) = false ->
  Dashboard.newBinaryStates st g =
  ({| defrostMode := lt (peek g 0) 0.05;
      compressorRunning := negb (lt (peek g 0) 0.05);
      evaporatorFan := true;
      caseLight := caseLight (binaryStates st);
      doorSwitch := lt (peek g 1) 0.1;
      alarmStatus := gt (caseTemp (currentValues st)) 38 || false |},
   advance 2 g).
Proof.
  intro H. unfold Dashboard.newBinaryStates, bind, ret, Math_random, peek, advance.
  rewrite H. cbn. destruct (lt (draws g (position g)) 0.05); reflexivity.
Qed.

Lemma newBinaryStates_in_defrost (st : State) (g : RandomSource) :
  defrostMode (binaryStates st) = true ->
  Dashboard.newBinaryStates st g =
  ({| defrostMode := negb (lt (peek g 0) 0.3);
      compressorRunning := lt (peek g 0) 0.3;
      evaporatorFan := false;
      caseLight := caseLight (binaryStates st);
      doorSwitch := lt (peek g 1) 0.1;
      alarmStatus := gt (caseTemp (currentValues st)) 38 || true |},
   advance 2 g).
Proof.
  intro H. unfold Dashboard.newBinaryStates, bind, ret, Math_random, peek, advance.
  rewrite H. cbn. destruct (lt (draws g (position g)) 0.3); reflexivity.
Qed.

(** ** The defrost state machine *)

(** C2: whatever the flags before the update and whatever the draws that
    decide the start and the end of a defrost, the [compressorRunning] flag
    that the update computes (and publishes) is the negation of the
    [defrostMode] flag it computes. *)
Theorem compressor_negates_new_defrost :
  forall (toLocaleTimeString : Z -> string) (now : Z) (st : State)
         (g : RandomSource),
    let states := binaryStates (fst (Dashboard.tick toLocaleTimeString now st g)) in
    states = fst (Dashboard.newBinaryStates st g) /\
    defrostMode states =
      (if defrostMode (binaryStates st)
       then negb (lt (peek g 0) 0.3) else lt (peek g 0) 0.05) /\
    compressorRunning states = negb (defrostMode states).
Proof.
  intros fmt now st g states. subst states. rewrite tick_binaryStates.
  split; [reflexivity |].
  destruct (defrostMode (binaryStates st)) eqn:Hd.
  - rewrite newBinaryStates_in_defrost by exact Hd. cbn.
    split; [reflexivity | now rewrite Bool.negb_involutive].
  - rewrite newBinaryStates_not_in_defrost by exact Hd. cbn.
    split; reflexivity.
Qed.

(** C6: on every update the fan and the alarm are computed from the values
    before the transition: the fan is on exactly when the defrost flag
    before the update is off, and the alarm is on exactly when the current
    (latest known) case temperature is above 38 or the defrost flag before
    the update is on. *)
Theorem fan_and_alarm_read_old_state :
  forall (toLocaleTimeString : Z -> string) (now : Z) (st : State)
         (g : RandomSource),
    let states := binaryStates (fst (Dashboard.tick toLocaleTimeString now st g)) in
    (evaporatorFan states = true <-> defrostMode (binaryStates st) = false) /\
    (alarmStatus states = true <->
     38 < caseTemp (currentValues st) \/ defrostMode (binaryStates st) = true).
Proof.
  intros fmt now st g states. subst states. rewrite tick_binaryStates.
  destruct (defrostMode (binaryStates st)) eqn:Hd.
  - rewrite newBinaryStates_in_defrost by exact Hd. cbn.
    rewrite Bool.orb_true_r. split; split; intro H;
      try discriminate H; try reflexivity. now right.
  - rewrite newBinaryStates_not_in_defrost by exact Hd. cbn.
    rewrite Bool.orb_false_r, gt_true_iff. split; split; intro H;
      try reflexivity; try (now left).
    destruct H as [H | H]; [exact H | discriminate H].
Qed.

(** ** The value generator *)

Lemma clamp_compat (lo hi x y : Q) :
  x == y -> Spec.clamp lo hi x == Spec.clamp lo hi y.
Proof.
  intro E. unfold Spec.clamp.
  destruct (Qlt_le_dec x lo), (Qlt_le_dec y lo); try lra;
    destruct (Qlt_le_dec hi x), (Qlt_le_dec hi y); lra.
Qed.

(** C3: in defrost mode the generator returns
    [min(max, previous + u * variance * multiplier)], where [u] is the draw
    minus 0.3, which lies in [[-0.3, 0.7)], and the multiplier is 1.5 when
    the baseline is below 50 and 1.1 otherwise; the lower bound plays no
    part: the result is the same whatever the [min] of the configuration. *)
Theorem generateValue_defrost_formula :
  forall (config : ChannelConfig) (previous : Q) (g : RandomSource),
    let r := peek g 0 in
    let u := r - 0.3 in
    Dashboard.generateValue config previous true g =
      (Spec.defrost_next config previous u, advance 1 g) /\
    (0 <= r /\ r < 1 -> - (0.3) <= u /\ u < 0.7) /\
    (forall lower : Q,
       Dashboard.generateValue
         {| baseline := baseline config; variance := variance config;
            min := lower; max := max config |} previous true g =
       Dashboard.generateValue config previous true g).
Proof.
  intros config previous g r u. subst u r. repeat split.
  - rewrite generateValue_defrost, multiplier_correct. reflexivity.
  - lra.
  - lra.
Qed.

(** C5: in normal mode the generator computes
    [target = baseline + u1 * variance] and
    [next = previous + (target - previous) * 0.3 + u2 * variance * 0.5],
    where [u1] and [u2] are two successive draws minus 0.5, each in
    [[-0.5, 0.5)], and returns [next] clamped to [[min, max]]. *)
Theorem generateValue_normal_formula :
  forall (config : ChannelConfig) (previous : Q) (g : RandomSource),
    min config <= max config ->
    let r1 := peek g 0 in
    let r2 := peek g 1 in
    let u1 := r1 - 0.5 in
    let u2 := r2 - 0.5 in
    fst (Dashboard.generateValue config previous false g) ==
      Spec.normal_next config previous u1 u2 /\
    snd (Dashboard.generateValue config previous false g) = advance 2 g /\
    (0 <= r1 /\ r1 < 1 -> - (0.5) <= u1 /\ u1 < 0.5) /\
    (0 <= r2 /\ r2 < 1 -> - (0.5) <= u2 /\ u2 < 0.5).
Proof.
  intros config previous g Hle r1 r2 u1 u2. subst u1 u2 r1 r2.
  rewrite generateValue_normal. cbn [fst snd]. repeat split; try lra.
  unfold Spec.normal_next. rewrite clamp_correct by exact Hle.
  apply clamp_compat. ring.
Qed.

(** The six configured channels have their bounds in order. *)
Lemma SIMULATION_CONFIG_ordered :
  let configs := Dashboard.SIMULATION_CONFIG in
  Forall (fun config => min config <= max config)
    [caseTemp configs; suctionTemp configs; dischargeTemp configs;
     evaporatorTemp configs; txValvePosition configs; txValveSuperheat configs].
Proof. cbn. repeat constructor; cbn; lra. Qed.

Ltac generate_next Hmax Hmin :=
  match goal with
  | |- context [Dashboard.generateValue ?c ?p true ?g] =>
      pose proof (@generateValue_le_max c p g true) as Hmax;
      destruct (Dashboard.generateValue c p true g) as [? ?]
  | |- context [Dashboard.generateValue ?c ?p false ?g] =>
      pose proof (@generateValue_le_max c p g false) as Hmax;
      pose proof (@generateValue_normal_ge_min c p g) as Hmin;
      destruct (Dashboard.generateValue c p false g) as [? ?]
  end;
  cbn [fst] in *.

Lemma newValues_at_most_max (values : Channels Q) (inDefrost : bool)
    (g : RandomSource) :
  Spec.for_all_channels Spec.at_most_max Dashboard.SIMULATION_CONFIG
    (fst (Dashboard.newValues values inDefrost g)).
Proof.
  unfold Dashboard.newValues, bind, ret, Spec.for_all_channels, Spec.at_most_max.
  destruct inDefrost;
    generate_next H1 L1; generate_next H2 L2; generate_next H3 L3;
    generate_next H4 L4; generate_next H5 L5; generate_next H6 L6;
    cbn in *; repeat split;
    match goal with H : _ -> ?x <= ?m |- ?x <= ?m => apply H; lra end.
Qed.

Lemma newValues_normal_in_range (values : Channels Q) (g : RandomSource) :
  Spec.for_all_channels Spec.in_range Dashboard.SIMULATION_CONFIG
    (fst (Dashboard.newValues values false g)).
Proof.
  unfold Dashboard.newValues, bind, ret, Spec.for_all_channels, Spec.in_range.
  generate_next H1 L1; generate_next H2 L2; generate_next H3 L3;
    generate_next H4 L4; generate_next H5 L5; generate_next H6 L6;
    cbn in *; repeat split; try assumption;
    match goal with H : _ -> ?x <= ?m |- ?x <= ?m => apply H; lra end.
Qed.

(** C9: in normal mode the result of the generator lies in [[min, max]]
    whatever the previous value, also one outside [[min, max]]; so an
    update that ends out of defrost publishes six values within their
    bounds wherever the values stood before, in particular below [min]
    after a defrost. *)
Theorem normal_mode_restores_bounds :
  forall (config : ChannelConfig) (previous : Q) (g : RandomSource)
         (toLocaleTimeString : Z -> string) (now : Z) (st : State),
    (min config <= max config ->
     Spec.in_range config
       (fst (Dashboard.generateValue config previous false g))) /\
    (let st' := fst (Dashboard.tick toLocaleTimeString now st g) in
     defrostMode (binaryStates st') = false ->
     Spec.for_all_channels Spec.in_range Dashboard.SIMULATION_CONFIG
       (currentValues st')).
Proof.
  intros config previous g fmt now st. split.
  - intro Hle. split.
    + apply generateValue_normal_ge_min.
    + apply generateValue_le_max. exact Hle.
  - intros st' Hd. subst st'.
    rewrite tick_binaryStates in Hd. rewrite tick_currentValues, Hd.
    apply newValues_normal_in_range.
Qed.

(** ** The history *)

Lemma slice_last_length (A : Type) (n : nat) (arr : list A) :
  (List.length (slice_last n arr) <= n)%nat.
Proof. unfold slice_last. rewrite length_skipn. lia. Qed.

Lemma slice_last_short (A : Type) (n : nat) (arr : list A) :
  (List.length arr <= n)%nat -> slice_last n arr = arr.
Proof.
  intro H. unfold slice_last.
  replace (List.length arr - n)%nat with 0%nat by lia. reflexivity.
Qed.

Lemma slice_last_push (A : Type) (n : nat) (arr : list A) (x : A) :
  slice_last (S n) (arr ++ [x]) = slice_last n arr ++ [x].
Proof.
  unfold slice_last. rewrite length_app, skipn_app. cbn [List.length].
  replace (List.length arr + 1 - S n)%nat with (List.length arr - n)%nat by lia.
  replace (List.length arr - n - List.length arr)%nat with 0%nat by lia.
  reflexivity.
Qed.

Lemma slice_last_app (A : Type) (n : nat) (arr new : list A) :
  slice_last n (slice_last n arr ++ new) = slice_last n (arr ++ new).
Proof.
  unfold slice_last. rewrite !length_app, length_skipn.
  destruct (Nat.le_gt_cases (List.length arr) n) as [H | H].
  - replace (List.length arr - n)%nat with 0%nat by lia. cbn [skipn].
    now rewrite Nat.sub_0_r.
  - rewrite (skipn_app (List.length arr + List.length new - n)).
    rewrite (skipn_app (List.length arr - (List.length arr - n)
                        + List.length new - n)).
    rewrite length_skipn, skipn_skipn. f_equal; f_equal; lia.
Qed.

(** A full history loses its oldest element to the new one. *)
Lemma slice_last_full (A : Type) (n : nat) (arr : list A) (x : A) :
  List.length arr = S n -> slice_last (S n) (arr ++ [x]) = tl arr ++ [x].
Proof.
  intro H. rewrite slice_last_push. f_equal. unfold slice_last.
  rewrite H. replace (S n - n)%nat with 1%nat by lia.
  destruct arr; reflexivity.
Qed.

(** ** The bounds of the published values *)

(** C1, as the code has it: the data point that an update appends to the
    history carries the published values; each of the six is at most the
    [max] of its channel in both modes, and at least its [min] when the
    update ends out of defrost.  For any configuration with [min <= max]
    the generator's result is at most [max], and at least [min] in normal
    mode.  (In defrost mode the lower bound is not enforced.) *)
Theorem published_values_bounded :
  forall (toLocaleTimeString : Z -> string) (now : Z) (st : State)
         (g : RandomSource) (config : ChannelConfig) (previous : Q)
         (inDefrost : bool),
    let st' := fst (Dashboard.tick toLocaleTimeString now st g) in
    (exists point : DataPoint,
       data st' = slice_last 59 (data st) ++ [point] /\
       timestamp point = now /\
       readings point = currentValues st') /\
    Spec.for_all_channels Spec.at_most_max Dashboard.SIMULATION_CONFIG
      (currentValues st') /\
    (defrostMode (binaryStates st') = false ->
     Spec.for_all_channels Spec.in_range Dashboard.SIMULATION_CONFIG
       (currentValues st')) /\
    (min config <= max config ->
     let value := fst (Dashboard.generateValue config previous inDefrost g) in
     value <= max config /\ (inDefrost = false -> min config <= value)).
Proof.
  intros fmt now st g config previous inDefrost st'. subst st'.
  split; [| split; [| split]].
  - eexists. rewrite tick_data, tick_currentValues.
    rewrite slice_last_push. repeat split.
  - rewrite tick_currentValues. apply newValues_at_most_max.
  - intro Hd. rewrite tick_binaryStates in Hd. rewrite tick_currentValues, Hd.
    apply newValues_normal_in_range.
  - intros Hle value. subst value. split.
    + apply generateValue_le_max. exact Hle.
    + intros ->. apply generateValue_normal_ge_min.
Qed.

(** C1 fails in defrost mode: for the case temperature ([min] 32, [max]
    40) at the previous value 32 and the draw 0, the generator returns
    31.1, below [min]. *)
Lemma defrost_breaks_lower_bound :
  let config := caseTemp Dashboard.SIMULATION_CONFIG in
  let value := fst (Dashboard.generateValue config 32 true (constant 0)) in
  Spec.in_range config 32 /\ value == 31.1 /\ ~ Spec.in_range config value.
Proof.
  cbv zeta. split; [| split].
  - split; cbn; lra.
  - reflexivity.
  - intros [Hmin _]. revert Hmin. apply Qlt_not_le. reflexivity.
Qed.

(** Such a value is published: from the initial state, a defrost that
    starts at the first update and lasts four updates with draws of 0 for
    the values brings the case temperature from 35 to 31.4. *)
Lemma defrost_reaches_below_min :
  let script := [0; 0; 0; 0; 0; 0; 0; 0;
                 0.5; 0; 0; 0; 0; 0; 0; 0;
                 0.5; 0; 0; 0; 0; 0; 0; 0;
                 0.5; 0; 0; 0; 0; 0; 0; 0] in
  let st := fst (Dashboard.ticks (fun _ => EmptyString)
                   [5000; 10000; 15000; 20000]%Z
                   Dashboard.initialState (scripted script 0)) in
  defrostMode (binaryStates st) = true /\
  caseTemp (currentValues st) == 31.4 /\
  exists point : DataPoint,
    nth_error (data st) 3 = Some point /\ caseTemp (readings point) == 31.4.
Proof.
  cbv zeta. split; [reflexivity | split; [reflexivity |]].
  eexists. split; [vm_compute; reflexivity | reflexivity].
Qed.

(** C4, as the code has it: in defrost mode a step is biased upwards, not
    monotone.  With a variance that is not negative and a previous value
    of at most [max], the next value is at least the previous one whenever
    the draw is at least 0.3; for a draw below 0.3 the value is not
    guaranteed to rise. *)
Theorem defrost_step_bounds :
  forall (config : ChannelConfig) (previous : Q) (g : RandomSource),
    0 <= variance config ->
    previous <= max config ->
    0.3 <= peek g 0 ->
    previous <= fst (Dashboard.generateValue config previous true g).
Proof.
  intros config previous g Hvar Hmax Hr.
  rewrite generateValue_defrost, multiplier_correct. cbn [fst].
  set (r := peek g 0) in *. set (v := variance config) in *.
  assert (Hm : 1 <= Spec.multiplier config).
  { unfold Spec.multiplier. destruct (Qlt_le_dec (baseline config) 50); lra. }
  set (m := Spec.multiplier config) in *.
  apply Math_min_glb; [exact Hmax |].
  assert (0 <= (r - 0.3) * v * m) by (repeat apply Qmult_le_0_compat; lra).
  lra.
Qed.

(** C4 fails: for the case temperature at its initial value 35, the draw 0
    gives 34.1, below the previous value. *)
Lemma defrost_step_can_fall :
  let config := caseTemp Dashboard.SIMULATION_CONFIG in
  let value := fst (Dashboard.generateValue config 35 true (constant 0)) in
  value == 34.1 /\ ~ 35 <= value.
Proof.
  cbv zeta. split.
  - reflexivity.
  - apply Qlt_not_le. reflexivity.
Qed.

(** ** The initial history *)

Section InitialData.

Variables (toLocaleTimeString : Z -> string) (now : Z).

Lemma advance_advance (n m : nat) (g : RandomSource) :
  advance n (advance m g) = advance (m + n) g.
Proof. unfold advance. cbn. f_equal. lia. Qed.

Lemma peek_advance (n m : nat) (g : RandomSource) :
  peek (advance m g) n = peek g (m + n).
Proof. unfold peek, advance. cbn. f_equal. lia. Qed.

Lemma initialDataPoint_eq (i : nat) (g : RandomSource) :
  Dashboard.initialDataPoint toLocaleTimeString now i g =
  (History.point toLocaleTimeString now g i 0, advance 6 g).
Proof.
  unfold Dashboard.initialDataPoint, History.point, bind, ret, Math_random,
    peek, advance. cbn. rewrite Nat.sub_0_r. reflexivity.
Qed.

Lemma point_shift (g : RandomSource) (n k : nat) :
  History.point toLocaleTimeString now (advance 6 g) n k =
  History.point toLocaleTimeString now g (S n) (S k).
Proof.
  unfold History.point. rewrite !peek_advance.
  replace (S n - S k)%nat with (n - k)%nat by lia.
  repeat (f_equal; try lia).
Qed.

Lemma initialDataLoop_eq (n : nat) :
  forall (initialData : list DataPoint) (g : RandomSource),
    Dashboard.initialDataLoop toLocaleTimeString now n initialData g =
    (initialData ++ map (History.point toLocaleTimeString now g n) (seq 0 n),
     advance (6 * n) g).
Proof.
  induction n as [| n IH]; intros acc g.
  - cbn. rewrite app_nil_r. unfold advance. destruct g. reflexivity.
  - cbn [Dashboard.initialDataLoop]. unfold bind at 1.
    rewrite initialDataPoint_eq, IH, advance_advance, <- app_assoc.
    f_equal.
    + f_equal. cbn [seq map app]. f_equal.
      rewrite <- seq_shift, map_map. apply map_ext. intro k.
      apply point_shift.
    + f_equal. lia.
Qed.

Lemma initialData_eq (g : RandomSource) :
  Dashboard.initialData toLocaleTimeString now g =
  (map (History.point toLocaleTimeString now g 60) (seq 0 60),
   advance 360 g).
Proof. unfold Dashboard.initialData. now rewrite initialDataLoop_eq. Qed.

End InitialData.

Lemma nth_error_map_seq (A : Type) (f : nat -> A) (n k : nat) :
  (k < n)%nat -> nth_error (map f (seq 0 n)) k = Some (f k).
Proof.
  intro H. apply map_nth_error.
  rewrite (nth_error_nth' _ 0%nat) by (rewrite length_seq; exact H).
  now rewrite seq_nth.
Qed.

Lemma nth_error_map_seq_inv (A : Type) (f : nat -> A) (n k : nat) (x : A) :
  nth_error (map f (seq 0 n)) k = Some x -> (k < n)%nat /\ x = f k.
Proof.
  intro H.
  assert (Hk : (k < n)%nat).
  { apply (f_equal (fun o => match o with Some _ => true | None => false end)) in H.
    destruct (Nat.lt_ge_cases k n) as [Hlt | Hge]; [exact Hlt |].
    rewrite (proj2 (nth_error_None _ _)) in H; [discriminate H |].
    now rewrite length_map, length_seq. }
  split; [exact Hk |].
  rewrite nth_error_map_seq in H by exact Hk. now injection H.
Qed.

Lemma jitter_range (baseline amplitude r : Q) :
  0 <= amplitude -> 0 <= r /\ r < 1 ->
  baseline - amplitude * 0.5 <= History.jitter baseline amplitude r /\
  History.jitter baseline amplitude r <= baseline + amplitude * 0.5.
Proof.
  intros Ha [H0 H1]. unfold History.jitter.
  assert (0 <= r * amplitude) by (apply Qmult_le_0_compat; assumption).
  assert (0 <= (1 - r) * amplitude) by (apply Qmult_le_0_compat; lra).
  assert (E1 : (r - 0.5) * amplitude == r * amplitude - amplitude * 0.5) by ring.
  assert (E2 : (r - 0.5) * amplitude ==
               amplitude * 0.5 - (1 - r) * amplitude) by ring.
  split; [rewrite E1 | rewrite E2]; lra.
Qed.

(** C8, as the code has it: the first effect builds exactly 60 points;
    the point of rank [k] (from 0) is stamped [now - 300 s + k * 5 s], so
    that successive points are exactly 5 seconds apart and the last one is
    stamped 5 seconds before [now]; each of its values is the baseline of
    the channel plus a jitter made from a draw of its own (and from no
    earlier value); with draws in [[0, 1)] every case temperature of the
    history lies in [[33, 37]]. *)
Theorem initialData_shape :
  forall (toLocaleTimeString : Z -> string) (now : Z) (g : RandomSource),
    let history := fst (Dashboard.initialData toLocaleTimeString now g) in
    let configs := Dashboard.SIMULATION_CONFIG in
    List.length history = 60%nat /\
    (forall k : nat, (k < 60)%nat ->
       exists point : DataPoint,
         nth_error history k = Some point /\
         timestamp point = (now - 300000 + Z.of_nat k * 5000)%Z /\
         readings point = {|
           caseTemp :=
             History.jitter (baseline (caseTemp configs)) 2 (peek g (6 * k));
           suctionTemp :=
             History.jitter (baseline (suctionTemp configs)) 2
               (peek g (6 * k + 1));
           dischargeTemp :=
             History.jitter (baseline (dischargeTemp configs)) 5
               (peek g (6 * k + 2));
           evaporatorTemp :=
             History.jitter (baseline (evaporatorTemp configs)) 2
               (peek g (6 * k + 3));
           txValvePosition :=
             History.jitter (baseline (txValvePosition configs)) 10
               (peek g (6 * k + 4));
           txValveSuperheat :=
             History.jitter (baseline (txValveSuperheat configs)) 2
               (peek g (6 * k + 5)) |}) /\
    (forall (k : nat) (p q : DataPoint),
       nth_error history k = Some p -> nth_error history (S k) = Some q ->
       timestamp q = (timestamp p + 5000)%Z) /\
    (exists point : DataPoint,
       nth_error history 59 = Some point /\
       timestamp point = (now - 5000)%Z) /\
    (in_unit_interval g ->
     Forall (fun point : DataPoint =>
               33 <= caseTemp (readings point) /\
               caseTemp (readings point) <= 37) history).
Proof.
  intros fmt now g history configs. subst history configs.
  rewrite initialData_eq. cbn [fst].
  split; [| split; [| split; [| split]]].
  - now rewrite length_map, length_seq.
  - intros k Hk. eexists. split; [apply nth_error_map_seq; exact Hk |].
    split; [| reflexivity]. cbn [timestamp History.point]. lia.
  - intros k p q Hp Hq.
    apply nth_error_map_seq_inv in Hp as [Hk ->].
    apply nth_error_map_seq_inv in Hq as [Hk' ->].
    cbn [timestamp History.point]. lia.
  - eexists. split; [apply nth_error_map_seq; lia |].
    cbn [timestamp History.point]. lia.
  - intro Hg. apply Forall_forall. intros point Hin.
    apply in_map_iff in Hin as [k [<- _]]. cbn [readings caseTemp History.point].
    pose proof (@jitter_range 35 2 (peek g (6 * k))) as H.
    destruct H as [Hlo Hhi]; [lra | apply Hg |]. lra.
Qed.

(** C8 fails on the end of the history: built at time 1,000,000 ms, its
    last point is stamped 995,000 ms, and no point is stamped with the time
    of the build. *)
Lemma initialData_ends_before_now :
  let history :=
    fst (Dashboard.initialData (fun _ => EmptyString) 1000000 (constant 0.5)) in
  option_map timestamp (nth_error history 59) = Some 995000%Z /\
  ~ In 1000000%Z (map timestamp history).
Proof.
  cbv zeta. rewrite initialData_eq. cbn [fst]. split.
  - reflexivity.
  - rewrite map_map, in_map_iff. intros [k [Hk Hin]].
    apply in_seq in Hin. cbn [timestamp History.point] in Hk. lia.
Qed.

(** ** The history under updates *)

Section Ticks.

Variable toLocaleTimeString : Z -> string.

Lemma tick_data_push (now : Z) (st : State) (g : RandomSource) :
  exists point : DataPoint,
    timestamp point = now /\
    data (fst (Dashboard.tick toLocaleTimeString now st g)) =
      slice_last 60 (data st ++ [point]).
Proof.
  eexists. split; [| rewrite tick_data; reflexivity]. reflexivity.
Qed.

Lemma tick_data_length (now : Z) (st : State) (g : RandomSource) :
  (List.length (data (fst (Dashboard.tick toLocaleTimeString now st g)))
   <= 60)%nat.
Proof. rewrite tick_data. apply slice_last_length. Qed.

(** After the updates of [clock] the history is the last 60 of the old
    history followed by one point per update, stamped with its time. *)
Lemma ticks_data (clock : list Z) :
  forall (st : State) (g : RandomSource),
    (List.length (data st) <= 60)%nat ->
    exists points : list DataPoint,
      map timestamp points = clock /\
      data (fst (Dashboard.ticks toLocaleTimeString clock st g)) =
        slice_last 60 (data st ++ points).
Proof.
  induction clock as [| now later IH]; intros st g Hlen.
  - exists []. split; [reflexivity |]. cbn.
    now rewrite app_nil_r, slice_last_short.
  - cbn [Dashboard.ticks]. unfold bind at 1.
    destruct (tick_data_push now st g) as [point [Hstamp Hdata]].
    pose proof (tick_data_length now st g) as Hlen'.
    destruct (Dashboard.tick toLocaleTimeString now st g) as [st' g'].
    cbn [fst] in *.
    destruct (IH st' g' Hlen') as [points [Hstamps Hdata']].
    exists (point :: points). split.
    + cbn. now rewrite Hstamp, Hstamps.
    + rewrite Hdata', Hdata, slice_last_app, <- app_assoc. reflexivity.
Qed.

End Ticks.

Lemma slice_last_In (A : Type) (n : nat) (arr : list A) (x : A) :
  In x (slice_last n arr) -> In x arr.
Proof.
  unfold slice_last. intro H.
  rewrite <- (firstn_skipn (List.length arr - n) arr).
  apply in_or_app. now right.
Qed.

Lemma slice_last_drop (A : Type) (n : nat) (arr new : list A) :
  (n <= List.length new)%nat ->
  slice_last n (arr ++ new) = slice_last n new.
Proof.
  intro H. unfold slice_last. rewrite length_app, skipn_app.
  rewrite skipn_all2 by lia. cbn [app]. f_equal. lia.
Qed.

(** C7: the history never holds more than 60 points.  An update appends
    exactly one point, stamped with the time of the update, and keeps the
    last 60: a history of fewer than 60 points grows by one, a history of
    60 loses its oldest point.  Starting from the 60 points built at time
    [start], after 61 updates (at times not before [start]) the history
    holds 60 points and the first point of the initial history is no longer
    in it. *)
Theorem history_is_bounded_fifo :
  forall (toLocaleTimeString : Z -> string) (now : Z) (st : State)
         (g : RandomSource) (start : Z) (clock : list Z) (g0 : RandomSource),
    List.length clock = 61%nat ->
    Forall (fun t : Z => (start <= t)%Z) clock ->
    let st' := fst (Dashboard.tick toLocaleTimeString now st g) in
    let mounted := fst (History.mounted toLocaleTimeString start g0) in
    let final :=
      fst (Dashboard.ticks toLocaleTimeString clock mounted
             (snd (History.mounted toLocaleTimeString start g0))) in
    (List.length (data st') <= 60)%nat /\
    (exists point : DataPoint,
       timestamp point = now /\
       data st' = slice_last 60 (data st ++ [point]) /\
       ((List.length (data st) < 60)%nat -> data st' = data st ++ [point]) /\
       (List.length (data st) = 60%nat -> data st' = tl (data st) ++ [point])) /\
    List.length (data mounted) = 60%nat /\
    List.length (data final) = 60%nat /\
    (forall first : DataPoint,
       hd_error (data mounted) = Some first -> ~ In first (data final)).
Proof.
  intros fmt now st g start clock g0 Hclock Hstart st' mounted final.
  subst st' mounted final. unfold History.mounted, Dashboard.initialize, bind, ret.
  rewrite initialData_eq. cbn [fst snd data].
  set (history := map (History.point fmt start g0 60) (seq 0 60)).
  assert (Hhistory : List.length history = 60%nat)
    by (subst history; now rewrite length_map, length_seq).
  split; [apply tick_data_length |].
  split.
  { destruct (tick_data_push fmt now st g) as [point [Hstamp Hdata]].
    exists point. repeat split; try assumption.
    - intro Hlt. rewrite Hdata. apply slice_last_short.
      rewrite length_app. cbn. lia.
    - intro Hfull. rewrite Hdata. now apply slice_last_full. }
  split; [exact Hhistory |].
  match goal with
  | |- context [Dashboard.ticks fmt clock ?s ?r] =>
      destruct (@ticks_data fmt clock s r) as [points [Hstamps Hdata]];
        [cbn [data]; lia |]
  end.
  rewrite Hdata. cbn [data].
  assert (Hpoints : List.length points = 61%nat)
    by (rewrite <- Hclock, <- Hstamps; now rewrite length_map).
  rewrite slice_last_drop by lia.
  split.
  - unfold slice_last. rewrite length_skipn. lia.
  - intros first Hfirst Hin.
    assert (Hold : timestamp first = (start - 300000)%Z).
    { subst history. cbn in Hfirst. injection Hfirst as <-. reflexivity. }
    apply slice_last_In in Hin.
    apply (in_map timestamp) in Hin. rewrite Hstamps, Hold in Hin.
    rewrite Forall_forall in Hstart. apply Hstart in Hin. lia.
Qed.

(** The fan and the alarm lag the defrost flag by one update: at the update
    that starts a defrost from the initial state the fan is still on and
    the alarm still off, while the new defrost flag is on. *)
Lemma fan_lags_defrost_start :
  let states := fst (Dashboard.newBinaryStates Dashboard.initialState (constant 0)) in
  defrostMode states = true /\ evaporatorFan states = true /\
  alarmStatus states = false.
Proof. cbv zeta. split; [| split]; reflexivity. Qed.

(** ** The two components *)

Lemma same_initialDataLoop (toLocaleTimeString : Z -> string) (now : Z)
    (i : nat) (initialData : list DataPoint) (g : RandomSource) :
  DashboardI18n.initialDataLoop toLocaleTimeString now i initialData g =
  Dashboard.initialDataLoop toLocaleTimeString now i initialData g.
Proof.
  revert initialData g. induction i as [| i IH]; intros initialData g.
  - reflexivity.
  - cbn [DashboardI18n.initialDataLoop Dashboard.initialDataLoop].
    unfold bind at 1 2.
    change (DashboardI18n.initialDataPoint toLocaleTimeString now (S i) g)
      with (Dashboard.initialDataPoint toLocaleTimeString now (S i) g).
    destruct (Dashboard.initialDataPoint toLocaleTimeString now (S i) g)
      as [point g'].
    apply IH.
Qed.

Lemma same_tick (toLocaleTimeString : Z -> string) (now : Z) (st : State)
    (g : RandomSource) :
  DashboardI18n.tick toLocaleTimeString now st g =
  Dashboard.tick toLocaleTimeString now st g.
Proof. reflexivity. Qed.

(** C10: the two components have the same simulator core: the same
    channel parameters and initial state, and generators, history loops and
    updates (new flags, new values, new history, new state) that return the
    same result on every input. *)
Theorem components_share_simulator :
  DashboardI18n.SIMULATION_CONFIG = Dashboard.SIMULATION_CONFIG /\
  DashboardI18n.initialState = Dashboard.initialState /\
  (forall (config : ChannelConfig) (previous : Q) (inDefrost : bool)
          (g : RandomSource),
     DashboardI18n.generateValue config previous inDefrost g =
     Dashboard.generateValue config previous inDefrost g) /\
  (forall (toLocaleTimeString : Z -> string) (now : Z) (g : RandomSource),
     DashboardI18n.initialData toLocaleTimeString now g =
     Dashboard.initialData toLocaleTimeString now g) /\
  (forall (toLocaleTimeString : Z -> string) (now : Z) (st : State)
          (g : RandomSource),
     DashboardI18n.initialize toLocaleTimeString now st g =
     Dashboard.initialize toLocaleTimeString now st g) /\
  (forall (st : State) (g : RandomSource),
     DashboardI18n.newBinaryStates st g = Dashboard.newBinaryStates st g) /\
  (forall (values : Channels Q) (inDefrost : bool) (g : RandomSource),
     DashboardI18n.newValues values inDefrost g =
     Dashboard.newValues values inDefrost g) /\
  (forall (point : DataPoint) (prevData : list DataPoint),
     DashboardI18n.setData point prevData = Dashboard.setData point prevData) /\
  (forall (toLocaleTimeString : Z -> string) (now : Z) (st : State)
          (g : RandomSource),
     DashboardI18n.tick toLocaleTimeString now st g =
     Dashboard.tick toLocaleTimeString now st g) /\
  (forall (toLocaleTimeString : Z -> string) (now : Z) (st : State)
          (g : RandomSource),
     DashboardI18n.interval toLocaleTimeString now st g =
     Dashboard.interval toLocaleTimeString now st g) /\
  (forall (toLocaleTimeString : Z -> string) (clock : list Z) (st : State)
          (g : RandomSource),
     DashboardI18n.ticks toLocaleTimeString clock st g =
     Dashboard.ticks toLocaleTimeString clock st g).
Proof.
  split; [reflexivity |]. split; [reflexivity |].
  split; [intros; reflexivity |].
  split; [intros; unfold DashboardI18n.initialData, Dashboard.initialData;
          apply same_initialDataLoop |].
  split; [intros; unfold DashboardI18n.initialize, Dashboard.initialize,
                    DashboardI18n.initialData, Dashboard.initialData, bind;
          now rewrite same_initialDataLoop |].
  split; [intros; reflexivity |]. split; [intros; reflexivity |].
  split; [intros; reflexivity |]. split; [intros; apply same_tick |].
  split; [intros; unfold DashboardI18n.interval, Dashboard.interval;
          destruct (isPaused st); [reflexivity | apply same_tick] |].
  intros fmt clock. induction clock as [| now later IH]; intros st g.
  - reflexivity.
  - cbn [DashboardI18n.ticks Dashboard.ticks]. unfold bind at 1 2.
    rewrite same_tick. destruct (Dashboard.tick fmt now st g) as [st' g'].
    apply IH.
Qed.

(** ** The theorems at sample inputs *)

Lemma published_values_bounded_witness :
  let st' := fst (Dashboard.tick Inputs.noTime 5000 Inputs.thawed (constant 0)) in
  let config := caseTemp Dashboard.SIMULATION_CONFIG in
  let value := fst (Dashboard.generateValue config 31.4 false (constant 0)) in
  Spec.for_all_channels Spec.in_range Dashboard.SIMULATION_CONFIG
    (currentValues st') /\
  value <= max config /\ min config <= value.
Proof.
  pose proof (published_values_bounded Inputs.noTime 5000 Inputs.thawed
                (constant 0) (caseTemp Dashboard.SIMULATION_CONFIG) 31.4 false)
    as H.
  cbv zeta in H. destruct H as [_ [_ [Hrange Hvalue]]].
  cbv zeta. split.
  - apply Hrange. reflexivity.
  - destruct Hvalue as [Hmax Hmin].
    + cbn. lra.
    + split; [exact Hmax | apply Hmin; reflexivity].
Defined.

Lemma generateValue_defrost_formula_witness :
  let u := peek (constant 0.5) 0 - 0.3 in - (0.3) <= u /\ u < 0.7.
Proof.
  pose proof (generateValue_defrost_formula
                (caseTemp Dashboard.SIMULATION_CONFIG) 35 (constant 0.5)) as H.
  cbv zeta in H. destruct H as [_ [Hu _]].
  apply Hu. split; cbn; lra.
Defined.

Lemma defrost_step_bounds_witness :
  let config := caseTemp Dashboard.SIMULATION_CONFIG in
  let value := fst (Dashboard.generateValue config 35 true (constant 0.5)) in
  0 <= variance config /\ 35 <= max config /\
  0.3 <= peek (constant 0.5) 0 /\ 35 <= value.
Proof.
  cbv zeta.
  assert (Hvar : 0 <= variance (caseTemp Dashboard.SIMULATION_CONFIG))
    by (cbn; lra).
  assert (Hmax : 35 <= max (caseTemp Dashboard.SIMULATION_CONFIG))
    by (cbn; lra).
  assert (Hdraw : 0.3 <= peek (constant 0.5) 0) by (cbn; lra).
  split; [exact Hvar | split; [exact Hmax | split; [exact Hdraw |]]].
  exact (@defrost_step_bounds (caseTemp Dashboard.SIMULATION_CONFIG) 35
           (constant 0.5) Hvar Hmax Hdraw).
Defined.

Lemma generateValue_normal_formula_witness :
  let config := caseTemp Dashboard.SIMULATION_CONFIG in
  min config <= max config /\
  fst (Dashboard.generateValue config 35 false (constant 0.5)) ==
    Spec.normal_next config 35 (0.5 - 0.5) (0.5 - 0.5).
Proof.
  assert (Hle : min (caseTemp Dashboard.SIMULATION_CONFIG) <=
                max (caseTemp Dashboard.SIMULATION_CONFIG)) by (cbn; lra).
  pose proof (generateValue_normal_formula
                (caseTemp Dashboard.SIMULATION_CONFIG) 35 (constant 0.5) Hle)
    as H.
  cbv zeta in H. destruct H as [Hvalue _].
  cbv zeta. split; [exact Hle | exact Hvalue].
Defined.

Lemma normal_mode_restores_bounds_witness :
  let st' := fst (Dashboard.tick Inputs.noTime 5000 Inputs.thawed (constant 0)) in
  let config := caseTemp Dashboard.SIMULATION_CONFIG in
  Spec.in_range config
    (fst (Dashboard.generateValue config 31.4 false (constant 0))) /\
  Spec.for_all_channels Spec.in_range Dashboard.SIMULATION_CONFIG
    (currentValues st').
Proof.
  pose proof (normal_mode_restores_bounds
                (caseTemp Dashboard.SIMULATION_CONFIG) 31.4 (constant 0)
                Inputs.noTime 5000 Inputs.thawed) as H.
  cbv zeta in H. destruct H as [Hvalue Hstate]. cbv zeta. split.
  - apply Hvalue. cbn. lra.
  - apply Hstate. reflexivity.
Defined.

Lemma initialData_shape_witness :
  let history :=
    fst (Dashboard.initialData Inputs.noTime 1000000 (constant 0.5)) in
  (exists point : DataPoint,
     nth_error history 0 = Some point /\ timestamp point = 700000%Z) /\
  Forall (fun point : DataPoint =>
            33 <= caseTemp (readings point) /\
            caseTemp (readings point) <= 37) history.
Proof.
  pose proof (initialData_shape Inputs.noTime 1000000 (constant 0.5)) as H.
  cbv zeta in H. destruct H as [_ [Hrank [_ [_ Hcase]]]]. cbv zeta. split.
  - destruct (Hrank 0%nat) as [point [Hnth [Hstamp _]]]; [lia |].
    exists point. split; [exact Hnth | exact Hstamp].
  - apply Hcase. intro n. cbn. split; lra.
Defined.

Lemma history_is_bounded_fifo_witness :
  let mounted := History.mounted Inputs.noTime 0 (constant 0.5) in
  let final :=
    fst (Dashboard.ticks Inputs.noTime Inputs.clock61 (fst mounted)
           (snd mounted)) in
  List.length Inputs.clock61 = 61%nat /\
  Forall (fun t : Z => (0 <= t)%Z) Inputs.clock61 /\
  List.length (data final) = 60%nat /\
  forall first : DataPoint,
    hd_error (data (fst mounted)) = Some first -> ~ In first (data final).
Proof.
  assert (Hlen : List.length Inputs.clock61 = 61%nat) by reflexivity.
  assert (Hclock : Forall (fun t : Z => (0 <= t)%Z) Inputs.clock61).
  { apply Forall_forall. intros t Ht. unfold Inputs.clock61 in Ht.
    apply in_map_iff in Ht. destruct Ht as [i [Hi _]]. lia. }
  pose proof (history_is_bounded_fifo Inputs.noTime 5000 Inputs.thawed
                (constant 0) (constant 0.5) Hlen Hclock) as H.
  cbv zeta in H. destruct H as [_ [_ [_ [Hfinal Hfirst]]]].
  cbv zeta. split; [exact Hlen |]. split; [exact Hclock |].
  split; [exact Hfinal | exact Hfirst].
Defined.

(** * Further properties of the simulator *)

(** ** How many draws an update reads *)

Lemma newBinaryStates_snd (st : State) (g : RandomSource) :
  snd (Dashboard.newBinaryStates st g) = advance 2 g.
Proof.
  destruct (defrostMode (binaryStates st)) eqn:Hd.
  - now rewrite newBinaryStates_in_defrost.
  - now rewrite newBinaryStates_not_in_defrost.
Qed.

Lemma newValues_snd (values : Channels Q) (inDefrost : bool)
    (g : RandomSource) :
  snd (Dashboard.newValues values inDefrost g) =
  advance (if inDefrost then 6 else 12) g.
Proof. destruct inDefrost; reflexivity. Qed.

Lemma tick_snd (toLocaleTimeString : Z -> string) (now : Z) (st : State)
    (g : RandomSource) :
  snd (Dashboard.tick toLocaleTimeString now st g) =
  advance
    (if defrostMode (fst (Dashboard.newBinaryStates st g)) then 8 else 14) g.
Proof.
  unfold Dashboard.tick, bind.
  pose proof (newBinaryStates_snd st g) as Hflags.
  destruct (Dashboard.newBinaryStates st g) as [states g1].
  cbn [fst snd] in *. subst g1.
  pose proof (newValues_snd (currentValues st) (defrostMode states)
                (advance 2 g)) as Hvalues.
  destruct (Dashboard.newValues (currentValues st) (defrostMode states)
              (advance 2 g)) as [values g2].
  cbn [fst snd] in *. subst g2. rewrite advance_advance.
  destruct (defrostMode states); reflexivity.
Qed.

(** X1: the random source is read a fixed number of times: building the
    initial history reads 360 draws, an update reads 8 draws when it ends
    in defrost and 14 when it does not; the sequence of draws itself is
    never altered. *)
Theorem draws_consumed :
  forall (toLocaleTimeString : Z -> string) (now : Z) (st : State)
         (g : RandomSource),
    let st' := fst (Dashboard.tick toLocaleTimeString now st g) in
    snd (Dashboard.initialData toLocaleTimeString now g) = advance 360 g /\
    snd (Dashboard.tick toLocaleTimeString now st g) =
      advance (if defrostMode (binaryStates st') then 8 else 14) g /\
    draws (snd (Dashboard.tick toLocaleTimeString now st g)) = draws g.
Proof.
  intros fmt now st g st'. subst st'. split; [| split].
  - now rewrite initialData_eq.
  - rewrite tick_binaryStates. apply tick_snd.
  - rewrite tick_snd. reflexivity.
Qed.

(** ** The flags along a run *)

Lemma newBinaryStates_compressor (st : State) (g : RandomSource) :
  let states := fst (Dashboard.newBinaryStates st g) in
  compressorRunning states = negb (defrostMode states) /\
  caseLight states = caseLight (binaryStates st) /\
  evaporatorFan states = negb (defrostMode (binaryStates st)) /\
  doorSwitch states = lt (peek g 1) 0.1 /\
  alarmStatus states =
    gt (caseTemp (currentValues st)) 38 || defrostMode (binaryStates st).
Proof.
  cbv zeta. destruct (defrostMode (binaryStates st)) eqn:Hd.
  - rewrite newBinaryStates_in_defrost by exact Hd. cbn.
    rewrite Bool.negb_involutive. repeat split.
  - rewrite newBinaryStates_not_in_defrost by exact Hd. cbn. repeat split.
Qed.

Lemma tick_coherent (toLocaleTimeString : Z -> string) (now : Z) (st : State)
    (g : RandomSource) :
  coherent (fst (Dashboard.tick toLocaleTimeString now st g)).
Proof.
  unfold coherent. rewrite tick_binaryStates, tick_currentValues.
  split; [apply newBinaryStates_compressor |].
  split; [apply newValues_at_most_max | apply tick_data_length].
Qed.

Lemma ticks_cons (toLocaleTimeString : Z -> string) (now : Z)
    (later : list Z) (st : State) (g : RandomSource) :
  Dashboard.ticks toLocaleTimeString (now :: later) st g =
  Dashboard.ticks toLocaleTimeString later
    (fst (Dashboard.tick toLocaleTimeString now st g))
    (snd (Dashboard.tick toLocaleTimeString now st g)).
Proof.
  cbn [Dashboard.ticks]. unfold bind at 1.
  now destruct (Dashboard.tick toLocaleTimeString now st g).
Qed.

Lemma tick_isPaused (toLocaleTimeString : Z -> string) (now : Z) (st : State)
    (g : RandomSource) :
  isPaused (fst (Dashboard.tick toLocaleTimeString now st g)) = isPaused st.
Proof.
  unfold Dashboard.tick, bind.
  destruct (Dashboard.newBinaryStates st g) as [nb g'].
  now destruct (Dashboard.newValues (currentValues st) (defrostMode nb) g').
Qed.

(** X2: in every state that updates reach from the initial state, the
    compressor runs exactly when the defrost flag is off, the case light is
    on, no value exceeds the [max] of its channel, the history holds at
    most 60 points and the component is not paused. *)
Theorem reachable_states_coherent :
  forall (toLocaleTimeString : Z -> string) (clock : list Z)
         (g : RandomSource),
    let st := fst (Dashboard.ticks toLocaleTimeString clock
                     Dashboard.initialState g) in
    coherent st /\
    caseLight (binaryStates st) = true /\
    isPaused st = false.
Proof.
  intros fmt clock g.
  assert (H : forall st g,
             coherent st -> caseLight (binaryStates st) = true ->
             isPaused st = false ->
             let st' := fst (Dashboard.ticks fmt clock st g) in
             coherent st' /\ caseLight (binaryStates st') = true /\
             isPaused st' = false).
  { induction clock as [| now later IH]; intros st g0 Hc Hl Hp.
    - cbn. auto.
    - rewrite ticks_cons.
      pose proof (tick_coherent fmt now st g0) as Hc'.
      pose proof (tick_binaryStates fmt now st g0) as Hb.
      apply IH; try assumption.
      + rewrite Hb.
        destruct (newBinaryStates_compressor st g0) as [_ [Hlight _]].
        now rewrite Hlight.
      + now rewrite tick_isPaused. }
  apply H; try reflexivity.
  unfold coherent, Spec.for_all_channels, Spec.at_most_max.
  split; [reflexivity | split; [cbn; repeat split; lra | cbn; lia]].
Qed.

(** X3: the fan and the alarm follow the flags with a lag of one update:
    after two successive updates the fan is on exactly when the compressor
    was running after the first, and the alarm is on exactly when, after
    the first, the defrost flag was on or the case temperature was above
    38. *)
Theorem fan_follows_compressor :
  forall (toLocaleTimeString : Z -> string) (now1 now2 : Z) (st : State)
         (g g' : RandomSource),
    let st1 := fst (Dashboard.tick toLocaleTimeString now1 st g) in
    let st2 := fst (Dashboard.tick toLocaleTimeString now2 st1 g') in
    evaporatorFan (binaryStates st2) = compressorRunning (binaryStates st1) /\
    (alarmStatus (binaryStates st2) = true <->
     defrostMode (binaryStates st1) = true \/
     38 < caseTemp (currentValues st1)).
Proof.
  intros fmt now1 now2 st g g' st1 st2. subst st2.
  rewrite (tick_binaryStates fmt now2 st1 g').
  destruct (newBinaryStates_compressor st1 g') as [_ [_ [Hfan [_ Halarm]]]].
  rewrite Hfan, Halarm. clear Hfan Halarm.
  destruct (tick_coherent fmt now1 st g) as [Hcomp _]. fold st1 in Hcomp.
  rewrite Hcomp, Bool.orb_true_iff, gt_true_iff.
  split; [reflexivity | tauto].
Qed.

(** X4: the door flag has no memory: whatever the state before the update,
    it is on exactly when the second draw of the update is below 0.1 (the
    first draw decides the start or the end of a defrost). *)
Theorem door_depends_on_second_draw :
  forall (toLocaleTimeString : Z -> string) (now : Z) (st : State)
         (g : RandomSource),
    doorSwitch (binaryStates (fst (Dashboard.tick toLocaleTimeString now st g)))
      = true <-> peek g 1 < 0.1.
Proof.
  intros fmt now st g. rewrite tick_binaryStates.
  destruct (newBinaryStates_compressor st g) as [_ [_ [_ [Hdoor _]]]].
  rewrite Hdoor. apply lt_true_iff.
Qed.

(** ** Normal mode pulls the values towards the baseline *)

Lemma newValues_normal_eq (values : Channels Q) (g : RandomSource) :
  let configs := Dashboard.SIMULATION_CONFIG in
  Dashboard.newValues values false g =
  ({| caseTemp :=
        fst (Dashboard.generateValue (caseTemp configs) (caseTemp values)
               false g);
      suctionTemp :=
        fst (Dashboard.generateValue (suctionTemp configs)
               (suctionTemp values) false (advance 2 g));
      dischargeTemp :=
        fst (Dashboard.generateValue (dischargeTemp configs)
               (dischargeTemp values) false (advance 4 g));
      evaporatorTemp :=
        fst (Dashboard.generateValue (evaporatorTemp configs)
               (evaporatorTemp values) false (advance 6 g));
      txValvePosition :=
        fst (Dashboard.generateValue (txValvePosition configs)
               (txValvePosition values) false (advance 8 g));
      txValveSuperheat :=
        fst (Dashboard.generateValue (txValveSuperheat configs)
               (txValveSuperheat values) false (advance 10 g)) |},
   advance 12 g).
Proof. reflexivity. Qed.

Lemma scaled_draw_bounds (r v : Q) :
  0 <= v -> 0 <= r -> r < 1 ->
  - (0.5 * v) <= (r - 0.5) * v /\ (r - 0.5) * v <= 0.5 * v.
Proof.
  intros Hv H0 H1.
  assert (0 <= r * v) by (apply Qmult_le_0_compat; assumption).
  assert (0 <= (1 - r) * v) by (apply Qmult_le_0_compat; lra).
  assert (E1 : (r - 0.5) * v == r * v - 0.5 * v) by ring.
  assert (E2 : (r - 0.5) * v == 0.5 * v - (1 - r) * v) by ring.
  split; [rewrite E1 | rewrite E2]; lra.
Qed.

(** A step of normal mode, in the exact arithmetic of this model, is a
    contraction towards the baseline plus a bounded noise. *)
Lemma normal_step_contracts :
  forall (config : ChannelConfig) (previous d : Q) (g : RandomSource),
    0 <= variance config ->
    min config <= baseline config -> baseline config <= max config ->
    0 <= peek g 0 /\ peek g 0 < 1 ->
    0 <= peek g 1 /\ peek g 1 < 1 ->
    baseline config - d <= previous -> previous <= baseline config + d ->
    let next := fst (Dashboard.generateValue config previous false g) in
    baseline config - (0.7 * d + 0.4 * variance config) <= next /\
    next <= baseline config + (0.7 * d + 0.4 * variance config).
Proof.
  intros config previous d g Hv Hmin Hmax [H0 H1] [H0' H1'] Hlo Hhi next.
  subst next. rewrite generateValue_normal. cbn [fst].
  destruct (scaled_draw_bounds Hv H0 H1) as [Ha Ha'].
  destruct (scaled_draw_bounds Hv H0' H1') as [Hb Hb'].
  set (a := (peek g 0 - 0.5) * variance config) in *.
  set (b := (peek g 1 - 0.5) * variance config) in *.
  split.
  - apply Qle_trans with
      (Math_min (max config)
         (previous + ((baseline config + a - previous) * 0.3 + b * 0.5))).
    + apply Math_min_glb; lra.
    + apply Q.le_max_r.
  - apply Math_max_lub; [lra |].
    apply Qle_trans with
      (previous + ((baseline config + a - previous) * 0.3 + b * 0.5));
      [apply Math_min_le_r | lra].
Qed.

Lemma normal_step_near_baseline (config : ChannelConfig) (previous : Q)
    (g : RandomSource) :
  0 <= variance config ->
  min config <= baseline config -> baseline config <= max config ->
  quiet g -> near_baseline config previous ->
  near_baseline config (fst (Dashboard.generateValue config previous false g)).
Proof.
  intros Hv Hmin Hmax Hq [Hlo Hhi].
  assert (Hdraw : forall n, 0 <= peek g n /\ peek g n < 1).
  { intro n. destruct (Hq (n + position g)%nat) as [H0 H1].
    unfold peek. split; lra. }
  destruct (@normal_step_contracts config previous ((4 # 3) * variance config) g
              Hv Hmin Hmax (Hdraw 0%nat) (Hdraw 1%nat) Hlo Hhi) as [H1 H2].
  split; lra.
Qed.

Lemma quiet_advance (n : nat) (g : RandomSource) : quiet g -> quiet (advance n g).
Proof. intros H k. apply H. Qed.

Lemma tick_quiet (toLocaleTimeString : Z -> string) (now : Z) (st : State)
    (g : RandomSource) :
  quiet g -> quiet (snd (Dashboard.tick toLocaleTimeString now st g)).
Proof. intro H. rewrite tick_snd. now apply quiet_advance. Qed.

Lemma quiet_tick_steady (toLocaleTimeString : Z -> string) (now : Z)
    (st : State) (g : RandomSource) :
  quiet g ->
  binaryStates st = binaryStates Dashboard.initialState ->
  Spec.for_all_channels near_baseline Dashboard.SIMULATION_CONFIG
    (currentValues st) ->
  let st' := fst (Dashboard.tick toLocaleTimeString now st g) in
  binaryStates st' = binaryStates Dashboard.initialState /\
  Spec.for_all_channels near_baseline Dashboard.SIMULATION_CONFIG
    (currentValues st').
Proof.
  intros Hq Hflags Hnear st'. subst st'.
  assert (Hstates : fst (Dashboard.newBinaryStates st g) =
                    binaryStates Dashboard.initialState).
  { rewrite newBinaryStates_not_in_defrost by now rewrite Hflags.
    cbn [fst]. rewrite Hflags. cbn [Dashboard.initialState binaryStates caseLight].
    assert (H0 : lt (peek g 0) 0.05 = false).
    { apply lt_false_iff. destruct (Hq (0 + position g)%nat) as [H _].
      unfold peek. lra. }
    assert (H1 : lt (peek g 1) 0.1 = false).
    { apply lt_false_iff. destruct (Hq (1 + position g)%nat) as [H _].
      unfold peek. lra. }
    assert (H2 : gt (caseTemp (currentValues st)) 38 = false).
    { apply lt_false_iff. destruct Hnear as [[_ H] _]. cbn in H. lra. }
    rewrite H0, H1, H2. reflexivity. }
  rewrite tick_binaryStates, tick_currentValues, Hstates.
  split; [reflexivity |].
  cbn [binaryStates Dashboard.initialState defrostMode].
  rewrite newBinaryStates_snd, newValues_normal_eq. cbn [fst].
  destruct Hnear as [N1 [N2 [N3 [N4 [N5 N6]]]]].
  unfold Spec.for_all_channels.
  cbn [caseTemp suctionTemp dischargeTemp evaporatorTemp txValvePosition
       txValveSuperheat].
  repeat split;
    apply normal_step_near_baseline;
    try assumption; try (cbn; lra); repeat apply quiet_advance; exact Hq.
Qed.

(** X6: under a random source whose draws all lie in [[0.1, 1)] nothing
    ever happens: after any number of updates from the initial state the
    six flags are the initial ones (no defrost, compressor and fan on, door
    shut, no alarm), every value is within four thirds of the variance of
    its baseline, and the case temperature stays below the alarm threshold
    38. *)
Theorem quiet_run_stays_steady :
  forall (toLocaleTimeString : Z -> string) (clock : list Z)
         (g : RandomSource),
    quiet g ->
    let st := fst (Dashboard.ticks toLocaleTimeString clock
                     Dashboard.initialState g) in
    binaryStates st = binaryStates Dashboard.initialState /\
    Spec.for_all_channels near_baseline Dashboard.SIMULATION_CONFIG
      (currentValues st) /\
    caseTemp (currentValues st) < 38.
Proof.
  intros fmt clock g Hq.
  assert (H : forall st g,
             quiet g ->
             binaryStates st = binaryStates Dashboard.initialState ->
             Spec.for_all_channels near_baseline Dashboard.SIMULATION_CONFIG
               (currentValues st) ->
             let st' := fst (Dashboard.ticks fmt clock st g) in
             binaryStates st' = binaryStates Dashboard.initialState /\
             Spec.for_all_channels near_baseline Dashboard.SIMULATION_CONFIG
               (currentValues st')).
  { induction clock as [| now later IH]; intros st g0 Hq0 Hflags Hnear.
    - cbn. auto.
    - rewrite ticks_cons.
      destruct (quiet_tick_steady fmt now st Hq0 Hflags Hnear) as [Hf Hn].
      apply IH; [now apply tick_quiet | exact Hf | exact Hn]. }
  destruct (H Dashboard.initialState g Hq) as [Hf Hn].
  - reflexivity.
  - unfold Spec.for_all_channels, near_baseline. cbn. repeat split; lra.
  - cbv zeta. split; [exact Hf | split; [exact Hn |]].
    destruct Hn as [[_ Hcase] _]. cbn in Hcase. lra.
Qed.

(** ** The history of a mounted component *)

Lemma mounted_data (toLocaleTimeString : Z -> string) (start : Z)
    (g : RandomSource) :
  data (fst (History.mounted toLocaleTimeString start g)) =
  map (History.point toLocaleTimeString start g 60) (seq 0 60).
Proof.
  unfold History.mounted, Dashboard.initialize, bind, ret.
  now rewrite initialData_eq.
Qed.

(** X7: the history of a mounted component slides: after [k] updates it is
    the last 60 of the initial history followed by the [k] new points, in
    the order of the updates; for [k <= 60] that is the initial history
    without its [k] oldest points followed by the new points, and from
    [k = 60] on no point of the initial history is left. *)
Theorem history_slides :
  forall (toLocaleTimeString : Z -> string) (start : Z) (g : RandomSource)
         (clock : list Z),
    let mounted := History.mounted toLocaleTimeString start g in
    let final :=
      fst (Dashboard.ticks toLocaleTimeString clock (fst mounted)
             (snd mounted)) in
    exists points : list DataPoint,
      map timestamp points = clock /\
      data final = slice_last 60 (data (fst mounted) ++ points) /\
      ((List.length clock <= 60)%nat ->
       data final = skipn (List.length clock) (data (fst mounted)) ++ points) /\
      ((60 <= List.length clock)%nat -> data final = slice_last 60 points).
Proof.
  intros fmt start g clock mounted final. subst final.
  assert (Hlen : List.length (data (fst mounted)) = 60%nat).
  { subst mounted. now rewrite mounted_data, length_map, length_seq. }
  destruct (@ticks_data fmt clock (fst mounted) (snd mounted))
    as [points [Hstamps Hdata]]; [lia |].
  assert (Hpoints : List.length points = List.length clock)
    by (now rewrite <- Hstamps, length_map).
  exists points. split; [exact Hstamps |]. split; [exact Hdata |]. split.
  - intro Hk. rewrite Hdata. unfold slice_last.
    rewrite length_app, skipn_app, Hlen, Hpoints.
    replace (60 + List.length clock - 60)%nat with (List.length clock) by lia.
    replace (List.length clock - 60)%nat with 0%nat by lia. reflexivity.
  - intro Hk. rewrite Hdata. apply slice_last_drop. lia.
Qed.

Lemma StronglySorted_app (l1 l2 : list Z) :
  StronglySorted Z.lt l1 -> StronglySorted Z.lt l2 ->
  (forall x y : Z, In x l1 -> In y l2 -> (x < y)%Z) ->
  StronglySorted Z.lt (l1 ++ l2).
Proof.
  intros H1 H2 Hcross. induction H1 as [| x l1 Hsorted IH Hx].
  - exact H2.
  - cbn. constructor.
    + apply IH. intros a b Ha Hb. apply Hcross; [now right | exact Hb].
    + apply Forall_app. split; [exact Hx |].
      apply Forall_forall. intros y Hy. apply Hcross; [now left | exact Hy].
Qed.

Lemma StronglySorted_skipn (n : nat) (l : list Z) :
  StronglySorted Z.lt l -> StronglySorted Z.lt (skipn n l).
Proof.
  revert l. induction n as [| n IH]; intros l H.
  - exact H.
  - destruct l as [| x l]; [constructor |].
    cbn. apply IH. now apply StronglySorted_inv in H.
Qed.

Lemma StronglySorted_map_seq (f : nat -> Z) (n : nat) :
  forall a : nat,
    (forall i j : nat, (a <= i < j)%nat -> (j < a + n)%nat -> (f i < f j)%Z) ->
    StronglySorted Z.lt (map f (seq a n)).
Proof.
  induction n as [| n IH]; intros a Hf.
  - constructor.
  - cbn. constructor.
    + apply IH. intros i j Hij Hj. apply Hf; lia.
    + apply Forall_forall. intros y Hy.
      apply in_map_iff in Hy as [j [<- Hj]]. apply in_seq in Hj.
      apply Hf; lia.
Qed.

(** X8: the history is in chronological order: for a component mounted at
    time [start] and updated at strictly increasing times, none before
    [start], the timestamps of the history increase strictly from the
    oldest point to the newest. *)
Theorem history_is_chronological :
  forall (toLocaleTimeString : Z -> string) (start : Z) (g : RandomSource)
         (clock : list Z),
    StronglySorted Z.lt clock ->
    Forall (fun t : Z => (start <= t)%Z) clock ->
    let mounted := History.mounted toLocaleTimeString start g in
    let final :=
      fst (Dashboard.ticks toLocaleTimeString clock (fst mounted)
             (snd mounted)) in
    StronglySorted Z.lt (map timestamp (data final)).
Proof.
  intros fmt start g clock Hsorted Hstart mounted final. subst final.
  destruct (@ticks_data fmt clock (fst mounted) (snd mounted))
    as [points [Hstamps Hdata]].
  { subst mounted. rewrite mounted_data, length_map, length_seq. lia. }
  rewrite Hdata. unfold slice_last. rewrite <- skipn_map.
  apply StronglySorted_skipn. rewrite map_app, Hstamps.
  subst mounted. rewrite mounted_data, map_map.
  apply StronglySorted_app.
  - apply StronglySorted_map_seq. intros i j Hij Hj.
    cbn [timestamp History.point]. lia.
  - exact Hsorted.
  - intros x y Hx Hy. apply in_map_iff in Hx as [k [<- Hk]].
    apply in_seq in Hk. rewrite Forall_forall in Hstart.
    apply Hstart in Hy. cbn [timestamp History.point]. lia.
Qed.

(** X9: with draws in [[0, 1)], every value of the initial history lies
    within the bounds of its channel. *)
Theorem initialData_in_range :
  forall (toLocaleTimeString : Z -> string) (now : Z) (g : RandomSource),
    in_unit_interval g ->
    Forall (fun point : DataPoint =>
              Spec.for_all_channels Spec.in_range Dashboard.SIMULATION_CONFIG
                (readings point))
      (fst (Dashboard.initialData toLocaleTimeString now g)).
Proof.
  intros fmt now g Hg. rewrite initialData_eq. cbn [fst].
  apply Forall_forall. intros point Hin.
  apply in_map_iff in Hin as [k [<- _]].
  assert (Hdraw : forall n, 0 <= peek g n /\ peek g n < 1)
    by (intro n; apply Hg).
  unfold Spec.for_all_channels, Spec.in_range.
  cbn [readings History.point caseTemp suctionTemp dischargeTemp
       evaporatorTemp txValvePosition txValveSuperheat].
  pose proof (@jitter_range 35 2 (peek g (6 * k))) as H1.
  pose proof (@jitter_range 20 2 (peek g (6 * k + 1))) as H2.
  pose proof (@jitter_range 140 5 (peek g (6 * k + 2))) as H3.
  pose proof (@jitter_range 28 2 (peek g (6 * k + 3))) as H4.
  pose proof (@jitter_range 45 10 (peek g (6 * k + 4))) as H5.
  pose proof (@jitter_range 8 2 (peek g (6 * k + 5))) as H6.
  destruct H1 as [? ?]; [lra | apply Hdraw |].
  destruct H2 as [? ?]; [lra | apply Hdraw |].
  destruct H3 as [? ?]; [lra | apply Hdraw |].
  destruct H4 as [? ?]; [lra | apply Hdraw |].
  destruct H5 as [? ?]; [lra | apply Hdraw |].
  destruct H6 as [? ?]; [lra | apply Hdraw |].
  cbn [Dashboard.SIMULATION_CONFIG min max caseTemp suctionTemp dischargeTemp
       evaporatorTemp txValvePosition txValveSuperheat].
  repeat split; lra.
Qed.

(** * What the components show *)

Lemma BinaryIndicator_english (inherited : string -> string)
    (t : list (string * string)) (label : Text) (active : bool)
    (color : option string) :
  Obj.own "on" t = Some "ON"%string ->
  Obj.own "off" t = Some "OFF"%string ->
  DashboardI18nView.BinaryIndicator inherited t label active color =
  DashboardView.BinaryIndicator inherited label active color.
Proof.
  intros Hon Hoff.
  unfold DashboardI18nView.BinaryIndicator, DashboardView.BinaryIndicator.
  rewrite Hon, Hoff. now destruct active.
Qed.

(** X10: with the language set to English the second component shows
    its language selector (the label [Language] followed by a colon, the
    button [English] active) and then the texts, values, chart data, series
    and indicators that the first component shows in the same simulator
    state; the one part of the content that differs is the tooltip of the
    chart, the component's own [CustomTooltip] in place of the library's:
    nothing unless it is active with a payload that is not empty, and
    otherwise one row per entry, [name: value.toFixed(1)]. *)
Theorem english_view_is_original_view :
  forall (inherited : string -> string) (toFixed : Q -> nat -> string)
         (st : State),
    DashboardI18nView.render inherited toFixed
      {| DashboardI18nView.simulator := st;
         DashboardI18nView.language := "en" |} =
    Some {|
      DashboardI18nView.languageLabel := [Some "Language"; Some ":"]%string;
      DashboardI18nView.languageButtons := [
        {| DashboardI18nView.buttonClass := "language-btn active";
           DashboardI18nView.buttonText := "English" |};
        {| DashboardI18nView.buttonClass := "language-btn ";
           DashboardI18nView.buttonText := "Español" |}
      ];
      DashboardI18nView.content :=
        withTooltip
          (CustomContent (DashboardI18nView.CustomTooltip toFixed))
          (DashboardView.render inherited st)
    |} /\
    tooltip (DashboardView.render inherited st) = LibraryContent /\
    (forall (payload : option (list PayloadEntry)) (label : Text),
       DashboardI18nView.CustomTooltip toFixed false payload label = None) /\
    (forall label : Text,
       DashboardI18nView.CustomTooltip toFixed true None label = None /\
       DashboardI18nView.CustomTooltip toFixed true (Some []) label = None) /\
    (forall (entry : PayloadEntry) (others : list PayloadEntry) (label : Text),
       exists box : TooltipBox,
         DashboardI18nView.CustomTooltip toFixed true
           (Some (entry :: others)) label = Some box /\
         boxLabel box = label /\
         map rowText (boxRows box) =
           map (fun e : PayloadEntry =>
                  [entryName e; Some ": "%string;
                   Some (toFixed (entryValue e) 1%nat)])
             (entry :: others) /\
         map rowColor (boxRows box) = map entryColor (entry :: others)).
Proof.
  intros inherited toFixed st. split; [| split; [| split; [| split]]].
  - unfold DashboardI18nView.render.
    cbn [DashboardI18nView.language DashboardI18nView.simulator].
    destruct (Obj.own "en" DashboardI18nView.TRANSLATIONS) as [t |] eqn:Ht;
      [| discriminate Ht].
    vm_compute in Ht. injection Ht as <-.
    rewrite !BinaryIndicator_english by reflexivity.
    reflexivity.
  - reflexivity.
  - reflexivity.
  - intro label. split; reflexivity.
  - intros entry others label. eexists. split; [reflexivity |].
    cbn [boxLabel boxRows]. rewrite !map_map. repeat split.
Qed.

(** X11: the colors that the components give to their six indicators are
    all keys of [colors]: what is shown never depends on a property that
    objects inherit, and an indicator that is off has the gray class
    whatever its color, known or not. *)
Theorem indicator_classes_defined :
  forall (inherited inherited' : string -> string) (st : State)
         (label : Text) (color : option string),
    DashboardView.render inherited st = DashboardView.render inherited' st /\
    lightClass (DashboardView.BinaryIndicator inherited label false color) =
      "indicator-light bg-gray-400 "%string /\
    Forall (fun indicator : Indicator =>
              exists shade : string,
                In shade (map snd DashboardView.colors) /\
                (lightClass indicator =
                   ("indicator-light " ++ shade ++ " active")%string \/
                 lightClass indicator = "indicator-light bg-gray-400 "%string))
      (indicators (DashboardView.render inherited st)).
Proof.
  intros inherited inherited' st label color.
  split; [reflexivity | split; [reflexivity |]].
  unfold DashboardView.render. cbn [indicators].
  repeat constructor;
    match goal with
    | |- context [DashboardView.BinaryIndicator _ _ ?flag (Some ?c)] =>
        exists (match Obj.own c DashboardView.colors with
                | Some shade => shade | None => EmptyString end);
        split; [cbn; tauto | destruct flag; [left | right]; reflexivity]
    end.
Qed.

(** ** The controls of the second component *)

Section Controls.

Variable toLocaleTimeString : Z -> string.

Lemma run_cons (e : DashboardI18nView.Event)
    (later : list DashboardI18nView.Event) (c : DashboardI18nView.Component)
    (g : RandomSource) :
  DashboardI18nView.run toLocaleTimeString (e :: later) c g =
  DashboardI18nView.run toLocaleTimeString later
    (fst (DashboardI18nView.handle toLocaleTimeString e c g))
    (snd (DashboardI18nView.handle toLocaleTimeString e c g)).
Proof.
  cbn [DashboardI18nView.run]. unfold bind at 1.
  now destruct (DashboardI18nView.handle toLocaleTimeString e c g).
Qed.

Lemma handle_language (e : DashboardI18nView.Event)
    (c : DashboardI18nView.Component) (g : RandomSource) :
  let c' := fst (DashboardI18nView.handle toLocaleTimeString e c g) in
  DashboardI18nView.language c' = DashboardI18nView.language c \/
  DashboardI18nView.language c' = "en"%string \/
  DashboardI18nView.language c' = "es"%string.
Proof.
  destruct e; cbn; auto.
  unfold bind. destruct (DashboardI18n.interval _ _ _ _). cbn. auto.
Qed.

Lemma run_language (events : list DashboardI18nView.Event) :
  forall (c : DashboardI18nView.Component) (g : RandomSource),
    DashboardI18nView.language c = "en"%string \/
    DashboardI18nView.language c = "es"%string ->
    let c' := fst (DashboardI18nView.run toLocaleTimeString events c g) in
    DashboardI18nView.language c' = "en"%string \/
    DashboardI18nView.language c' = "es"%string.
Proof.
  induction events as [| e later IH]; intros c g H.
  - exact H.
  - rewrite run_cons. apply IH.
    destruct (handle_language e c g) as [E | E]; [rewrite E; exact H | exact E].
Qed.

End Controls.

Lemma NoDup_by_nodup (l : list string) :
  nodup string_dec l = l -> NoDup l.
Proof. intros <-. apply NoDup_nodup. Qed.

(** X12: whatever the clicks, switch changes and timer periods since the
    component was mounted, the selected language is English or Spanish, its
    table exists and defines, once each, exactly the keys that the component
    reads, the tree is built, and exactly one of the two language buttons is
    marked active. *)
Theorem selected_language_is_translated :
  forall (toLocaleTimeString : Z -> string) (inherited : string -> string)
         (toFixed : Q -> nat -> string)
         (events : list DashboardI18nView.Event) (g : RandomSource),
    let c := fst (DashboardI18nView.run toLocaleTimeString events
                    DashboardI18nView.initialComponent g) in
    exists (t : list (string * string)) (view : DashboardI18nView.LocalizedView),
      Obj.own (DashboardI18nView.language c) DashboardI18nView.TRANSLATIONS
        = Some t /\
      Forall (fun key : string => Obj.own key t <> None)
        DashboardI18nView.renderedKeys /\
      incl (Obj.keys t) DashboardI18nView.renderedKeys /\
      NoDup (Obj.keys t) /\
      DashboardI18nView.render inherited toFixed c = Some view /\
      (map DashboardI18nView.buttonClass
         (DashboardI18nView.languageButtons view) =
         ["language-btn active"; "language-btn "]%string \/
       map DashboardI18nView.buttonClass
         (DashboardI18nView.languageButtons view) =
         ["language-btn "; "language-btn active"]%string).
Proof.
  intros fmt inherited toFixed events g c.
  assert (Hlang : DashboardI18nView.language c = "en"%string \/
                  DashboardI18nView.language c = "es"%string).
  { subst c. apply run_language. now left. }
  unfold DashboardI18nView.render.
  destruct Hlang as [E | E]; rewrite E;
    (destruct (Obj.own _ DashboardI18nView.TRANSLATIONS) as [t |] eqn:Ht;
       [| discriminate Ht]);
    vm_compute in Ht; injection Ht as <-;
    eexists; eexists;
    (split; [reflexivity |]);
    (split; [repeat constructor; discriminate |]);
    (split; [intros key Hkey; vm_compute in Hkey |- *; tauto |]);
    (split; [apply NoDup_by_nodup; reflexivity |]);
    (split; [reflexivity |]).
  - left. reflexivity.
  - right. reflexivity.
Qed.

(** X13: the language buttons do not disturb the simulation: the simulator
    state and the random source after a sequence of events are those after
    the same sequence without its language clicks. *)
Theorem language_clicks_leave_simulation :
  forall (toLocaleTimeString : Z -> string)
         (events : list DashboardI18nView.Event)
         (c : DashboardI18nView.Component) (g : RandomSource),
    let others :=
      filter (fun e => negb (DashboardI18nView.isLanguageClick e)) events in
    let after := DashboardI18nView.run toLocaleTimeString events c g in
    let after' := DashboardI18nView.run toLocaleTimeString others c g in
    DashboardI18nView.simulator (fst after) =
      DashboardI18nView.simulator (fst after') /\
    snd after = snd after'.
Proof.
  intros fmt events c g others after after'. subst others after after'.
  assert (H : forall c c' g,
             DashboardI18nView.simulator c = DashboardI18nView.simulator c' ->
             DashboardI18nView.simulator
               (fst (DashboardI18nView.run fmt events c g)) =
             DashboardI18nView.simulator
               (fst (DashboardI18nView.run fmt
                       (filter (fun e =>
                                  negb (DashboardI18nView.isLanguageClick e))
                          events) c' g)) /\
             snd (DashboardI18nView.run fmt events c g) =
             snd (DashboardI18nView.run fmt
                    (filter (fun e =>
                               negb (DashboardI18nView.isLanguageClick e))
                       events) c' g)).
  { induction events as [| e later IH]; intros c1 c2 g0 Hsim.
    - cbn. auto.
    - rewrite run_cons. destruct e; cbn [filter DashboardI18nView.isLanguageClick negb].
      + apply IH. exact Hsim.
      + apply IH. exact Hsim.
      + rewrite run_cons. apply IH. cbn. now rewrite Hsim.
      + rewrite run_cons. cbn [DashboardI18nView.handle]. unfold bind.
        rewrite Hsim.
        destruct (DashboardI18n.interval fmt now
                    (DashboardI18nView.simulator c2) g0) as [st g1].
        apply IH. reflexivity. }
  apply H. reflexivity.
Qed.

(** X14: pausing freezes the simulation: from a paused component, events
    that leave the switch alone (timer periods, language clicks) change
    neither the history, the values, the flags nor the random source, so
    that resuming continues from the state at the pause. *)
Theorem paused_simulation_is_frozen :
  forall (toLocaleTimeString : Z -> string)
         (events : list DashboardI18nView.Event)
         (c : DashboardI18nView.Component) (g : RandomSource),
    isPaused (DashboardI18nView.simulator c) = true ->
    forallb (fun e => negb (DashboardI18nView.isCheckedChange e)) events
      = true ->
    let after := DashboardI18nView.run toLocaleTimeString events c g in
    DashboardI18nView.simulator (fst after) = DashboardI18nView.simulator c /\
    snd after = g.
Proof.
  intros fmt events. induction events as [| e later IH];
    intros c g Hpaused Hevents after; subst after.
  - cbn. auto.
  - cbn [forallb] in Hevents. apply Bool.andb_true_iff in Hevents as [He Hlater].
    rewrite run_cons.
    assert (Hstep : DashboardI18nView.simulator
                      (fst (DashboardI18nView.handle fmt e c g)) =
                    DashboardI18nView.simulator c /\
                    snd (DashboardI18nView.handle fmt e c g) = g).
    { destruct e; cbn in He |- *; try discriminate He; auto.
      unfold bind, DashboardI18n.interval. rewrite Hpaused. cbn. auto. }
    destruct Hstep as [Hsim Hg]. rewrite Hg.
    destruct (IH (fst (DashboardI18nView.handle fmt e c g)) g) as [H1 H2];
      [now rewrite Hsim | exact Hlater |].
    rewrite H1, H2. auto.
Qed.

(** ** The further theorems at sample inputs *)

Lemma quiet_constant : quiet (constant 0.5).
Proof. intro n. cbn. split; lra. Defined.

Lemma quiet_run_stays_steady_witness :
  let st := fst (Dashboard.ticks Inputs.noTime Inputs.clock61
                   Dashboard.initialState (constant 0.5)) in
  quiet (constant 0.5) /\
  binaryStates st = binaryStates Dashboard.initialState /\
  caseTemp (currentValues st) < 38.
Proof.
  cbv zeta. split; [exact quiet_constant |].
  destruct (quiet_run_stays_steady Inputs.noTime Inputs.clock61 quiet_constant)
    as [Hflags [_ Hcase]].
  split; [exact Hflags | exact Hcase].
Defined.

Lemma history_slides_witness :
  let mounted := History.mounted Inputs.noTime 0 (constant 0.5) in
  let final :=
    fst (Dashboard.ticks Inputs.noTime [5000; 10000]%Z (fst mounted)
           (snd mounted)) in
  exists points : list DataPoint,
    map timestamp points = [5000; 10000]%Z /\
    data final = skipn 2 (data (fst mounted)) ++ points.
Proof.
  cbv zeta.
  destruct (history_slides Inputs.noTime 0 (constant 0.5) [5000; 10000]%Z)
    as [points [Hstamps [_ [Hshort _]]]].
  exists points. split; [exact Hstamps |]. apply Hshort. cbn. lia.
Defined.

Lemma history_is_chronological_witness :
  let clock := [5000; 10000; 15000]%Z in
  let mounted := History.mounted Inputs.noTime 0 (constant 0.5) in
  let final :=
    fst (Dashboard.ticks Inputs.noTime clock (fst mounted) (snd mounted)) in
  StronglySorted Z.lt clock /\
  Forall (fun t : Z => (0 <= t)%Z) clock /\
  StronglySorted Z.lt (map timestamp (data final)).
Proof.
  cbv zeta.
  assert (Hsorted : StronglySorted Z.lt [5000; 10000; 15000]%Z)
    by (repeat constructor; lia).
  assert (Hstart : Forall (fun t : Z => (0 <= t)%Z) [5000; 10000; 15000]%Z)
    by (repeat constructor; lia).
  split; [exact Hsorted | split; [exact Hstart |]].
  exact (history_is_chronological Inputs.noTime (constant 0.5) Hsorted Hstart).
Defined.

Lemma initialData_in_range_witness :
  in_unit_interval (constant 0.5) /\
  Forall (fun point : DataPoint =>
            Spec.for_all_channels Spec.in_range Dashboard.SIMULATION_CONFIG
              (readings point))
    (fst (Dashboard.initialData Inputs.noTime 1000000 (constant 0.5))).
Proof.
  assert (H : in_unit_interval (constant 0.5)) by (intro n; cbn; split; lra).
  split; [exact H |].
  exact (initialData_in_range Inputs.noTime 1000000 H).
Defined.

Lemma paused_simulation_is_frozen_witness :
  let c := DashboardI18nView.setIsPaused true
             DashboardI18nView.initialComponent in
  let events := [DashboardI18nView.Period 5000;
                 DashboardI18nView.ClickEspanol;
                 DashboardI18nView.Period 10000] in
  let after := DashboardI18nView.run Inputs.noTime events c (constant 0) in
  isPaused (DashboardI18nView.simulator c) = true /\
  DashboardI18nView.simulator (fst after) = DashboardI18nView.simulator c /\
  snd after = constant 0.
Proof.
  cbv zeta. split; [reflexivity |].
  apply (@paused_simulation_is_frozen Inputs.noTime
           [DashboardI18nView.Period 5000; DashboardI18nView.ClickEspanol;
            DashboardI18nView.Period 10000]
           (DashboardI18nView.setIsPaused true
              DashboardI18nView.initialComponent) (constant 0));
    reflexivity.
Defined.
